(** * agile-dhcp: the DHCPv4 message codec and client session, verified

    A shallow embedding of package [dhcp4] (byte helpers, the option
    structs, [Message] with its builders, [Encode] and [Decode], and the
    [Conn] session handler) followed by the properties of the design
    document that are settled against it. Of the two versions of the
    session in the tree, the one with the relay address and the retry
    counter is embedded (its [NewDHCPRequest] takes four texts); the
    older one, without relay, is not.

    Conventions.
    - A Go [byte]/[uint8] is a [Byte.byte]; [uint16], [uint32] and [int] are
      [Z] with the wrap-around written where the code can overflow.
    - A Go function that can panic (index out of range, slice bounds out of
      range) returns an [outcome]; [Panic] is the run-time panic, which in
      the receive goroutine terminates the process. [OutOfFuel] is the
      third outcome of the one loop that is not structurally recursive; it
      is shown never to occur.
    - [bytes.Buffer] is the list of its unread bytes; [Next n] hands out the
      first [n] of them, or all of them when fewer are left.
    - Console output ([fmt.Printf], the [String] renderers) is not part of
      the model. *)

From Stdlib Require Import String ZArith NArith List Lia Bool.
From Stdlib.Strings Require Import Byte Ascii.
Import ListNotations.

Set Implicit Arguments.

(** ** Panics *)

Inductive outcome (A : Type) : Type :=
| Ok (a : A)
| Panic
| OutOfFuel.

Arguments Ok {A} a.
Arguments Panic {A}.
Arguments OutOfFuel {A}.

Definition bind {A B : Type} (x : outcome A) (k : A -> outcome B) : outcome B :=
  match x with
  | Ok a => k a
  | Panic => Panic
  | OutOfFuel => OutOfFuel
  end.

Notation "x <- c ;; k" := (bind c (fun x => k))
  (at level 61, c at next level, right associativity).

Definition orPanic {A : Type} (o : option A) : outcome A :=
  match o with
  | Some a => Ok a
  | None => Panic
  end.

(** ** Bytes *)

(** The conversion [byte(x)] / [uint8(x)] of an integer: the low eight bits. *)
Definition uint8 (z : Z) : byte :=
  match Byte.of_N (Z.to_N (z mod 256)) with
  | Some b => b
  | None => x00
  end.

Definition ofByte (b : byte) : Z := Z.of_N (Byte.to_N b).

Definition bytes (l : list Z) : list byte := map uint8 l.

(** [make([]byte, n, n)] *)
Definition make (n : nat) : list byte := repeat x00 n.

(** [b[0]] *)
Definition index0 (b : list byte) : outcome byte :=
  match b with
  | [] => Panic
  | b0 :: _ => Ok b0
  end.

(** [b[i:j]] on a slice whose length is [length b] and whose capacity
    reaches over the bytes [spare] that follow it in the backing array: Go
    checks the bounds of a slice expression against the capacity. *)
Definition slice (b spare : list byte) (i j : nat) : outcome (list byte) :=
  if (j <=? length b + length spare)%nat
  then Ok (firstn (j - i) (skipn i (b ++ spare)))
  else Panic.

(** [buf.Next(n)]: the next [n] unread bytes (fewer when the buffer holds
    fewer) and the buffer after them. *)
Definition Next (n : nat) (buf : list byte) : list byte * list byte :=
  (firstn n buf, skipn n buf).

Definition lenOf (b : byte) : nat := N.to_nat (Byte.to_N b).

(** ** Byte helpers *)

Definition Uint16ToBytes (data : Z) : list byte :=
  [uint8 (Z.shiftr data 8); uint8 data].

Definition Uint32ToBytes (data : Z) : list byte :=
  [uint8 (Z.shiftr data 24); uint8 (Z.shiftr data 16);
   uint8 (Z.shiftr data 8); uint8 data].

Definition Uint8ToBytes (data : byte) : list byte := [data].

Definition BytesToUint16 (data : list byte) : outcome Z :=
  match data with
  | [d0; d1] => Ok (Z.lor (Z.shiftl (ofByte d0) 8) (ofByte d1))
  | d0 :: _ => Ok (ofByte d0)
  | [] => Panic
  end.

Definition BytesToUint32 (data : list byte) : Z :=
  match data with
  | d0 :: d1 :: d2 :: d3 :: _ =>
      Z.lor (Z.lor (Z.lor (Z.shiftl (ofByte d0) 24) (Z.shiftl (ofByte d1) 16))
                   (Z.shiftl (ofByte d2) 8))
            (ofByte d3)
  | _ => 0%Z
  end.

(** ** Options *)

Definition MessageType : Type := byte.

Definition MessageTypeDiscover : MessageType := x01.
Definition MessageTypeOffer : MessageType := x02.
Definition MessageTypeRequest : MessageType := x03.
Definition MessageTypeDecline : MessageType := x04.
Definition MessageTypeAck : MessageType := x05.
Definition MessageTypeNak : MessageType := x06.
Definition MessageTypeRelease : MessageType := x07.

Module Option1.
Record t : Type := mk { Code : byte; Length : byte; SubnetMask : list byte }.
Definition zero : t := mk x00 x00 [].
Definition Encode (o : t) : list byte := Code o :: Length o :: SubnetMask o.
Definition Decode (o : t) (b : list byte) : outcome t :=
  match b with
  | [] => Panic
  | b0 :: rest => Ok (mk x01 b0 rest)
  end.
Definition GetCode (o : t) : byte := Code o.
End Option1.

(** The loop [for i := 0; i < int(length); i += 4] of [Option3.Decode] and
    [Option6.Decode]: [n] counts the iterations still to run. *)
Fixpoint chunks4 (n i : nat) (b spare : list byte) (acc : list (list byte))
  : outcome (list (list byte)) :=
  match n with
  | O => Ok acc
  | S n' =>
      c <- slice b spare i (i + 4) ;;
      chunks4 n' (i + 4) b spare (acc ++ [c])
  end.

Definition iterations4 (len : byte) : nat := (lenOf len + 3) / 4.

Module Option3.
Record t : Type := mk { Code : byte; Length : byte; Routers : list (list byte) }.
Definition zero : t := mk x00 x00 [].
Definition Encode (o : t) : list byte := Code o :: Length o :: concat (Routers o).
Definition Decode (o : t) (len : byte) (b spare : list byte) : outcome t :=
  rs <- chunks4 (iterations4 len) 0 b spare (Routers o) ;;
  Ok (mk x03 (Length o) rs).
Definition GetCode (o : t) : byte := Code o.
End Option3.

Module Option6.
Record t : Type :=
  mk { Code : byte; Length : byte; DomainNameServers : list (list byte) }.
Definition zero : t := mk x00 x00 [].
Definition Encode (o : t) : list byte :=
  Code o :: Length o :: concat (DomainNameServers o).
Definition Decode (o : t) (len : byte) (b spare : list byte) : outcome t :=
  ds <- chunks4 (iterations4 len) 0 b spare (DomainNameServers o) ;;
  Ok (mk x06 (Length o) ds).
Definition GetCode (o : t) : byte := Code o.
End Option6.

Module Option12.
Record t : Type := mk { Code : byte; Length : byte; HostName : list byte }.
Definition zero : t := mk x00 x00 [].
Definition GetCode (o : t) : byte := Code o.
Definition Encode (o : t) : list byte := Code o :: Length o :: HostName o.
Definition Decode (o : t) (b : list byte) : outcome t :=
  let (l, buf) := Next 1 b in
  len <- index0 l ;;
  Ok (mk x0c len (fst (Next (lenOf len) buf))).
End Option12.

Definition GenOption12 (hostName : string) : Option12.t :=
  let h := list_byte_of_string hostName in
  Option12.mk x0c (uint8 (Z.of_nat (length h))) h.

Module Option50.
Record t : Type := mk { Code : byte; Length : byte; Address : list byte }.
Definition zero : t := mk x00 x00 [].
Definition GetCode (o : t) : byte := Code o.
Definition Encode (o : t) : list byte := Code o :: Length o :: Address o.
Definition Decode (o : t) (b : list byte) : outcome t :=
  let (l, buf) := Next 1 b in
  len <- index0 l ;;
  Ok (mk x32 len (fst (Next (lenOf len) buf))).
End Option50.

Definition GenOption50 (address : list byte) : Option50.t :=
  Option50.mk x32 x04 address.

Module Option51.
Record t : Type := mk { Code : byte; Length : byte; LeaseTime : list byte }.
Definition zero : t := mk x00 x00 [].
Definition Encode (o : t) : list byte := Code o :: Length o :: LeaseTime o.
Definition Decode (o : t) (b : list byte) : outcome t :=
  match b with
  | [] => Panic
  | b0 :: rest => Ok (mk x33 b0 rest)
  end.
Definition GetCode (o : t) : byte := Code o.
End Option51.

Definition GenOption51 (t : Z) : Option51.t :=
  Option51.mk x33 x04 (Uint32ToBytes t).

Module Option53.
Record t : Type := mk { Code : byte; Length : byte; MessageType : MessageType }.
Definition zero : t := mk x00 x00 x00.
Definition GetCode (o : t) : byte := Code o.
Definition Encode (o : t) : list byte := [Code o; Length o; MessageType o].
Definition Decode (o : t) (b : list byte) : outcome t :=
  match b with
  | b0 :: b1 :: _ => Ok (mk x35 b0 b1)
  | _ => Panic
  end.
End Option53.

Definition GenOption53 (c : MessageType) : Option53.t := Option53.mk x35 x01 c.

Module Option54.
Record t : Type := mk { Code : byte; Length : byte; ServerIdentifier : list byte }.
Definition zero : t := mk x00 x00 [].
Definition GetCode (o : t) : byte := Code o.
Definition Encode (o : t) : list byte := Code o :: Length o :: ServerIdentifier o.
Definition Decode (o : t) (b : list byte) : outcome t :=
  let (l, buf) := Next 1 b in
  len <- index0 l ;;
  Ok (mk x36 len (fst (Next 4 buf))).
End Option54.

Module Option55.
Record t : Type := mk { Code : byte; Length : byte; Parameters : list byte }.
Definition zero : t := mk x00 x00 [].
Definition GetCode (o : t) : byte := Code o.
Definition Encode (o : t) : list byte := Code o :: Length o :: Parameters o.
Definition Decode (o : t) (b : list byte) : outcome t :=
  let (l, buf) := Next 1 b in
  len <- index0 l ;;
  Ok (mk x37 len (Parameters o ++ buf)).
End Option55.

Definition GenOption55 : Option55.t :=
  let parameters := bytes [1; 3; 6; 15; 46; 108; 114; 119; 121; 252]%Z in
  Option55.mk x37 (uint8 (Z.of_nat (length parameters))) parameters.

Module Option57.
Record t : Type := mk { Code : byte; Length : byte; MaximumMessageSize : list byte }.
Definition zero : t := mk x00 x00 [].
Definition Encode (o : t) : list byte :=
  Code o :: Length o :: MaximumMessageSize o.
Definition Decode (o : t) (b : list byte) : outcome t :=
  match b with
  | [] => Panic
  | b0 :: rest => Ok (mk (Code o) b0 rest)
  end.
Definition GetCode (o : t) : byte := Code o.
End Option57.

Definition GenOption57 (t : Z) : Option57.t :=
  Option57.mk x39 x02 (Uint16ToBytes t).

Module Option58.
Record t : Type := mk { Code : byte; Length : byte; RenewalTime : list byte }.
Definition zero : t := mk x00 x00 [].
Definition Encode (o : t) : list byte := Code o :: Length o :: RenewalTime o.
Definition Decode (o : t) (b : list byte) : outcome t :=
  match b with
  | [] => Panic
  | b0 :: rest => Ok (mk x3a b0 rest)
  end.
Definition GetCode (o : t) : byte := Code o.
End Option58.

Module Option59.
Record t : Type := mk { Code : byte; Length : byte; RebindingTime : list byte }.
Definition zero : t := mk x00 x00 [].
Definition Encode (o : t) : list byte := Code o :: Length o :: RebindingTime o.
Definition Decode (o : t) (b : list byte) : outcome t :=
  match b with
  | [] => Panic
  | b0 :: rest => Ok (mk x3b b0 rest)
  end.
Definition GetCode (o : t) : byte := Code o.
End Option59.

Module Option61.
Record t : Type :=
  mk { Code : byte; Length : byte; HardwareType : byte;
       ClientIdentifier : list byte }.
Definition zero : t := mk x00 x00 x00 [].
Definition Encode (o : t) : list byte :=
  Code o :: Length o :: HardwareType o :: ClientIdentifier o.
Definition GetCode (o : t) : byte := Code o.
Definition Decode (o : t) (b : list byte) : outcome t :=
  match b with
  | [] => Panic
  | b0 :: rest => Ok (mk x3d (Length o) b0 rest)
  end.
Definition setLength (o : t) (len : byte) : t :=
  mk (Code o) len (HardwareType o) (ClientIdentifier o).
End Option61.

Definition GenOption61 (mac : list byte) : Option61.t :=
  Option61.mk x3d x07 x01 mac.

Module Option108.
Record t : Type := mk { Code : byte; Length : byte; Value : list byte }.
Definition zero : t := mk x00 x00 [].
Definition Encode (o : t) : list byte := Code o :: Length o :: Value o.
Definition Decode (o : t) (b : list byte) : outcome t :=
  match b with
  | [] => Panic
  | b0 :: rest => Ok (mk x6c b0 rest)
  end.
Definition GetCode (o : t) : byte := Code o.
End Option108.

Module Option255.
Record t : Type := mk { Code : byte }.
Definition zero : t := mk x00.
Definition GetCode (o : t) : byte := Code o.
Definition Encode (o : t) : list byte := [Code o].
Definition Decode (o : t) (b : list byte) : outcome t :=
  b0 <- index0 b ;;
  Ok (mk b0).
End Option255.

Definition GenOption255 : Option255.t := Option255.mk xff.

(** The values behind the interface [OptionInter]: one case per struct
    that implements it, over the type [O138] of the [Option138] values. *)
Inductive OptionStruct (O138 : Type) : Type :=
| Opt1 (o : Option1.t)
| Opt3 (o : Option3.t)
| Opt6 (o : Option6.t)
| Opt12 (o : Option12.t)
| Opt50 (o : Option50.t)
| Opt51 (o : Option51.t)
| Opt53 (o : Option53.t)
| Opt54 (o : Option54.t)
| Opt55 (o : Option55.t)
| Opt57 (o : Option57.t)
| Opt58 (o : Option58.t)
| Opt59 (o : Option59.t)
| Opt61 (o : Option61.t)
| Opt108 (o : Option108.t)
| Opt138 (o : O138)
| Opt255 (o : Option255.t).

Arguments Opt1 {O138} o.
Arguments Opt3 {O138} o.
Arguments Opt6 {O138} o.
Arguments Opt12 {O138} o.
Arguments Opt50 {O138} o.
Arguments Opt51 {O138} o.
Arguments Opt53 {O138} o.
Arguments Opt54 {O138} o.
Arguments Opt55 {O138} o.
Arguments Opt57 {O138} o.
Arguments Opt58 {O138} o.
Arguments Opt59 {O138} o.
Arguments Opt61 {O138} o.
Arguments Opt108 {O138} o.
Arguments Opt138 {O138} o.
Arguments Opt255 {O138} o.

(** ** Messages *)

Definition MagicCookie : list byte := [x63; x82; x53; x63].

Definition MinRequestLength : nat := 300.

Module ClientHardware.
Record t : Type :=
  mk { HardwareAddress : list byte; HardwareAddressPadding : list byte }.
Definition zero : t := mk [] [].
Definition Encode (c : t) : list byte :=
  HardwareAddress c ++ HardwareAddressPadding c.
End ClientHardware.

(** [Message], over the type [O] of the values behind [OptionInter]. *)
Module Message.
Record t (O : Type) : Type :=
  mk { OpCode : byte;
       HardwareType : byte;
       HardwareLength : byte;
       Hops : byte;
       TransactionID : Z;
       SecondsElapsed : Z;
       Flags : Z;
       ClientIP : list byte;
       YourIP : list byte;
       NextServerIP : list byte;
       RelayAgentIP : list byte;
       ClientMAC : ClientHardware.t;
       ServerHostName : list byte;
       BootFile : list byte;
       MagicCookie : list byte;
       Options : list O;
       MessageType : MessageType }.

Definition zero (O : Type) : t O :=
  mk x00 x00 x00 x00 0%Z 0%Z 0%Z [] [] [] [] ClientHardware.zero [] [] [] [] x00.

Definition setTransactionID (O : Type) (m : t O) (x : Z) : t O :=
  mk (OpCode m) (HardwareType m) (HardwareLength m) (Hops m) x
     (SecondsElapsed m) (Flags m) (ClientIP m) (YourIP m) (NextServerIP m)
     (RelayAgentIP m) (ClientMAC m) (ServerHostName m) (BootFile m)
     (MagicCookie m) (Options m) (MessageType m).

Definition setSecondsElapsed (O : Type) (m : t O) (x : Z) : t O :=
  mk (OpCode m) (HardwareType m) (HardwareLength m) (Hops m) (TransactionID m)
     x (Flags m) (ClientIP m) (YourIP m) (NextServerIP m)
     (RelayAgentIP m) (ClientMAC m) (ServerHostName m) (BootFile m)
     (MagicCookie m) (Options m) (MessageType m).

Definition setRelayAgentIP (O : Type) (m : t O) (x : list byte) : t O :=
  mk (OpCode m) (HardwareType m) (HardwareLength m) (Hops m) (TransactionID m)
     (SecondsElapsed m) (Flags m) (ClientIP m) (YourIP m) (NextServerIP m)
     x (ClientMAC m) (ServerHostName m) (BootFile m)
     (MagicCookie m) (Options m) (MessageType m).

Definition setOptions (O : Type) (m : t O) (x : list O) : t O :=
  mk (OpCode m) (HardwareType m) (HardwareLength m) (Hops m) (TransactionID m)
     (SecondsElapsed m) (Flags m) (ClientIP m) (YourIP m) (NextServerIP m)
     (RelayAgentIP m) (ClientMAC m) (ServerHostName m) (BootFile m)
     (MagicCookie m) x (MessageType m).

Definition setMessageType (O : Type) (m : t O) (x : byte) : t O :=
  mk (OpCode m) (HardwareType m) (HardwareLength m) (Hops m) (TransactionID m)
     (SecondsElapsed m) (Flags m) (ClientIP m) (YourIP m) (NextServerIP m)
     (RelayAgentIP m) (ClientMAC m) (ServerHostName m) (BootFile m)
     (MagicCookie m) (Options m) x.
End Message.

(** ** Sessions *)

Definition MaxRetryNum : Z := 1.

(** [Conn] without its sockets and its completion channel: a send is
    recorded in the result of the method that makes it, and the handler's
    boolean result is what makes [listenUDP] signal completion. *)
Module Conn.
Record t : Type :=
  mk { TransactionID : Z;
       SecondsElapsed : Z;
       DhcpServerHost : string;
       CurrentMessageType : MessageType;
       HostName : string;
       Mac : string;
       MacByte : list byte;
       retry : Z;
       relay : list byte }.

Definition setSecondsElapsed (c : t) (x : Z) : t :=
  mk (TransactionID c) x (DhcpServerHost c) (CurrentMessageType c)
     (HostName c) (Mac c) (MacByte c) (retry c) (relay c).

Definition setCurrentMessageType (c : t) (x : MessageType) : t :=
  mk (TransactionID c) (SecondsElapsed c) (DhcpServerHost c) x
     (HostName c) (Mac c) (MacByte c) (retry c) (relay c).

Definition setRetry (c : t) (x : Z) : t :=
  mk (TransactionID c) (SecondsElapsed c) (DhcpServerHost c)
     (CurrentMessageType c) (HostName c) (Mac c) (MacByte c) x (relay c).
End Conn.

(** The result of a method that sends: the session after it, the message
    whose encoding was handed to [Write], and whether [Write] failed. *)
Record sending (M : Type) : Type :=
  { after : Conn.t; message : M; failed : bool }.

(** The result of [handlerResponse]: the session after the call, the
    messages sent during it, and the boolean it returns ([true] makes the
    receive loop signal completion). *)
Record handled (M : Type) : Type :=
  { session : Conn.t; sent : list M; done : bool }.

(** What one [ReadFromUDP] of the receive loop returns: a datagram with
    the text [rAddr.String()] of its source, or an error, with whether it
    is a [*net.OpError] whose [Timeout()] or [Temporary()] holds. *)
Inductive read : Type :=
| Datagram (addr : string) (payload : list byte)
| ReadError (timeout : bool).

(** How the run of [listenUDP] over the reads at hand ends: it has called
    [done], it has returned without calling it (the bind failed), or it is
    blocked in the next [ReadFromUDP]. *)
Inductive ending : Type :=
| Signalled
| Unbound
| Waiting.

Record listened (M : Type) : Type :=
  { final : Conn.t; sentAll : list M; ended : ending }.

(** [x + 1] on a 16-bit unsigned counter. *)
Definition succ16 (x : Z) : Z := ((x + 1) mod 65536)%Z.

(** [x++] on an [int] of the 64-bit targets the Makefile builds for. *)
Definition succInt (x : Z) : Z :=
  ((x + 1 + 9223372036854775808) mod 18446744073709551616
   - 9223372036854775808)%Z.

(** ** What the package takes from outside its source tree

    The Go library functions the package calls, the allocation policy of
    [bytes.Buffer], the outcome of a send, and the two declarations of the
    package that its callers use but that are not in the source tree at
    hand ([Option138] with its methods, and [GenOption54]). *)

Class Platform : Type :=
  { (** [net.ParseMAC]: [None] where Go returns an error. *)
    ParseMAC : string -> option (list byte);
    (** [net.ParseIP(s).To4()]; the nil slice is the empty list. *)
    ParseIPTo4 : string -> list byte;
    (** How many bytes of capacity the buffer of [Decode] has beyond the
        [n] bytes it was grown for; they are zero. *)
    bufferSpare : nat -> nat;
    (** Whether [UDPConn.Write] of a datagram returns an error. *)
    WriteFails : list byte -> bool;
    Option138 : Type;
    (** [Option138{}.Decode(b)], given [b] and the bytes of the backing
        array that follow it; [None] where it panics. *)
    Option138_Decode : list byte -> list byte -> option Option138;
    (** The assignment [o.Length = length]. *)
    Option138_setLength : Option138 -> byte -> Option138;
    Option138_Encode : Option138 -> list byte;
    Option138_GetCode : Option138 -> byte;
    GenOption54 : list byte -> Option54.t }.

(** *** A concrete platform, to run the model on examples

    Six colon-separated octets for hardware addresses, dotted quads for
    IPv4 addresses, a buffer of exact capacity, sends that succeed, and an
    option 138 that keeps its payload. *)

Definition hexDigit (c : ascii) : option Z :=
  let n := Z.of_N (N_of_ascii c) in
  if ((48 <=? n) && (n <=? 57))%Z then Some (n - 48)%Z
  else if ((97 <=? n) && (n <=? 102))%Z then Some (n - 87)%Z
  else if ((65 <=? n) && (n <=? 70))%Z then Some (n - 55)%Z
  else None.

Definition hexPair (a b : ascii) : option byte :=
  match hexDigit a, hexDigit b with
  | Some h, Some l => Some (uint8 (16 * h + l))
  | _, _ => None
  end.

Fixpoint colonOctets (s : string) : option (list byte) :=
  match s with
  | String a (String b EmptyString) => option_map (fun x => [x]) (hexPair a b)
  | String a (String b (String ":" rest)) =>
      match hexPair a b, colonOctets rest with
      | Some x, Some xs => Some (x :: xs)
      | _, _ => None
      end
  | _ => None
  end.

Definition exampleParseMAC (s : string) : option (list byte) :=
  match colonOctets s with
  | Some hw => if (length hw =? 6)%nat then Some hw else None
  | None => None
  end.

Fixpoint dottedFields (s : string) (cur : option Z) (acc : list Z)
  : option (list Z) :=
  match s with
  | EmptyString => option_map (fun v => acc ++ [v]) cur
  | String "." rest =>
      match cur with
      | Some v => dottedFields rest None (acc ++ [v])
      | None => None
      end
  | String c rest =>
      let n := Z.of_N (N_of_ascii c) in
      if ((48 <=? n) && (n <=? 57))%Z
      then dottedFields rest
             (Some (10 * match cur with Some v => v | None => 0 end + (n - 48)))%Z
             acc
      else None
  end.

Definition exampleParseIPTo4 (s : string) : list byte :=
  match dottedFields s None [] with
  | Some fs =>
      if ((length fs =? 4)%nat && forallb (fun v => (v <=? 255)%Z) fs)%bool
      then bytes fs else []
  | None => []
  end.

Definition examplePlatform : Platform :=
  {| ParseMAC := exampleParseMAC;
     ParseIPTo4 := exampleParseIPTo4;
     bufferSpare := fun _ => O;
     WriteFails := fun _ => false;
     Option138 := byte * list byte;
     Option138_Decode := fun b _ => Some (x00, b);
     Option138_setLength := fun o len => (len, snd o);
     Option138_Encode := fun o => x8a :: fst o :: snd o;
     Option138_GetCode := fun _ => x8a;
     GenOption54 := fun address => Option54.mk x36 x04 address |}.

Section Dhcp4.

Context {P : Platform}.

(** The interface [OptionInter] on this platform. *)
Definition OptionInter : Type := OptionStruct Option138.

Definition OptionInter_Encode (option : OptionInter) : list byte :=
  match option with
  | Opt1 o => Option1.Encode o
  | Opt3 o => Option3.Encode o
  | Opt6 o => Option6.Encode o
  | Opt12 o => Option12.Encode o
  | Opt50 o => Option50.Encode o
  | Opt51 o => Option51.Encode o
  | Opt53 o => Option53.Encode o
  | Opt54 o => Option54.Encode o
  | Opt55 o => Option55.Encode o
  | Opt57 o => Option57.Encode o
  | Opt58 o => Option58.Encode o
  | Opt59 o => Option59.Encode o
  | Opt61 o => Option61.Encode o
  | Opt108 o => Option108.Encode o
  | Opt138 o => Option138_Encode o
  | Opt255 o => Option255.Encode o
  end.

Definition OptionInter_GetCode (option : OptionInter) : byte :=
  match option with
  | Opt1 o => Option1.GetCode o
  | Opt3 o => Option3.GetCode o
  | Opt6 o => Option6.GetCode o
  | Opt12 o => Option12.GetCode o
  | Opt50 o => Option50.GetCode o
  | Opt51 o => Option51.GetCode o
  | Opt53 o => Option53.GetCode o
  | Opt54 o => Option54.GetCode o
  | Opt55 o => Option55.GetCode o
  | Opt57 o => Option57.GetCode o
  | Opt58 o => Option58.GetCode o
  | Opt59 o => Option59.GetCode o
  | Opt61 o => Option61.GetCode o
  | Opt108 o => Option108.GetCode o
  | Opt138 o => Option138_GetCode o
  | Opt255 o => Option255.GetCode o
  end.

Definition Message : Type := Message.t OptionInter.

Definition Message_zero : Message := Message.zero OptionInter.

(** [GenClientHardware]: the value and whether an error comes with it. *)
Definition GenClientHardware (mac : string) : ClientHardware.t * bool :=
  match ParseMAC mac with
  | None => (ClientHardware.zero, true)
  | Some m => (ClientHardware.mk m (make 10), false)
  end.

(** [m.getOption(code)]; [None] is the nil interface. *)
Fixpoint getOption (options : list OptionInter) (code : byte)
  : option OptionInter :=
  match options with
  | [] => None
  | option :: rest =>
      if Byte.eqb (OptionInter_GetCode option) code then Some option
      else getOption rest code
  end.

Definition Message_getOption (m : Message) (code : byte) : option OptionInter :=
  getOption (Message.Options m) code.

Definition GenDiscoverMessage (mac : string) (options : list OptionInter)
  : Message :=
  Message.mk x01 x01 x06 x00 0%Z 0%Z 0%Z
    (make 4) (make 4) (make 4) (make 4)
    (fst (GenClientHardware mac))
    (make 64) (make 128) MagicCookie
    ([Opt53 (GenOption53 MessageTypeDiscover); Opt55 GenOption55]
       ++ options ++ [Opt255 GenOption255])
    MessageTypeDiscover.

Definition GenDeclineMessage (mac : string) (declineIP : list byte)
  (options : list OptionInter) : Message :=
  Message.mk x01 x01 x06 x00 0%Z 0%Z 0%Z
    (make 4) (make 4) (make 4) (make 4)
    (fst (GenClientHardware mac))
    (make 64) (make 128) MagicCookie
    ([Opt53 (GenOption53 MessageTypeDecline); Opt55 GenOption55;
      Opt50 (GenOption50 declineIP)]
       ++ options ++ [Opt255 GenOption255])
    MessageTypeDecline.

Definition GenReleaseMessage (mac : string) (releaseIP : list byte)
  (options : list OptionInter) : Message :=
  Message.mk x01 x01 x06 x00 0%Z 0%Z 0%Z
    releaseIP (make 4) (make 4) (make 4)
    (fst (GenClientHardware mac))
    (make 64) (make 128) MagicCookie
    ([Opt53 (GenOption53 MessageTypeRelease); Opt55 GenOption55]
       ++ options ++ [Opt255 GenOption255])
    MessageTypeRelease.

Definition optionToList (o : option OptionInter) : list OptionInter :=
  match o with
  | Some option => [option]
  | None => []
  end.

Definition GenRequestMessage (offer : Message) (options : list OptionInter)
  : Message :=
  Message.mk x01 x01 x06 x00
    (Message.TransactionID offer)
    (succ16 (Message.SecondsElapsed offer))
    0%Z
    (make 4) (make 4) (make 4) (make 4)
    (Message.ClientMAC offer)
    (make 64) (make 128) MagicCookie
    ([Opt53 (GenOption53 MessageTypeRequest); Opt55 GenOption55;
      Opt50 (GenOption50 (Message.YourIP offer))]
       ++ options
       ++ optionToList (Message_getOption offer x36)
       ++ optionToList (Message_getOption offer x3d)
       ++ [Opt255 GenOption255])
    MessageTypeRequest.

(** The buffer of [Encode] before the padding loop. *)
Definition Message_unpadded (m : Message) : list byte :=
  [Message.OpCode m; Message.HardwareType m; Message.HardwareLength m;
   Message.Hops m]
    ++ Uint32ToBytes (Message.TransactionID m)
    ++ Uint16ToBytes (Message.SecondsElapsed m)
    ++ Uint16ToBytes (Message.Flags m)
    ++ Message.ClientIP m
    ++ Message.YourIP m
    ++ Message.NextServerIP m
    ++ Message.RelayAgentIP m
    ++ ClientHardware.Encode (Message.ClientMAC m)
    ++ Message.ServerHostName m
    ++ Message.BootFile m
    ++ Message.MagicCookie m
    ++ flat_map OptionInter_Encode (Message.Options m).

(** [for diff > 0 { buf.WriteByte(0); diff-- }] *)
Fixpoint padLoop (diff : nat) (buf : list byte) : list byte :=
  match diff with
  | O => buf
  | S diff' => padLoop diff' (buf ++ [x00])
  end.

Definition Message_Encode (m : Message) : list byte :=
  let buf := Message_unpadded m in
  padLoop (MinRequestLength - length buf) buf.

(** The [for] loop of [Decode]: [option] is the code byte just read, [buf]
    the unread bytes, [spare] the rest of the backing array. Every round
    reads at least the next code byte, so [S (length buf)] rounds of [fuel]
    are enough. *)
Fixpoint optionLoop (fuel : nat) (spare : list byte) (option : byte)
  (buf : list byte) (options : list OptionInter) (m : Message)
  : outcome Message :=
  match fuel with
  | O => OutOfFuel
  | S fuel' =>
      let next (buf : list byte) (options : list OptionInter) (m : Message) :=
        match buf with
        | [] => Panic
        | option' :: buf' => optionLoop fuel' spare option' buf' options m
        end in
      match Byte.to_N option with
      | 1%N =>
          o <- Option1.Decode Option1.zero (fst (Next 5 buf)) ;;
          next (snd (Next 5 buf)) (options ++ [Opt1 o]) m
      | 3%N =>
          len <- index0 (fst (Next 1 buf)) ;;
          let o := Option3.mk x03 len [] in
          let r := Next (lenOf len) (snd (Next 1 buf)) in
          o <- Option3.Decode o len (fst r) (snd r ++ spare) ;;
          next (snd r) (options ++ [Opt3 o]) m
      | 6%N =>
          len <- index0 (fst (Next 1 buf)) ;;
          let o := Option6.mk x06 len [] in
          let r := Next (lenOf len) (snd (Next 1 buf)) in
          o <- Option6.Decode o len (fst r) (snd r ++ spare) ;;
          next (snd r) (options ++ [Opt6 o]) m
      | 51%N =>
          o <- Option51.Decode Option51.zero (fst (Next 5 buf)) ;;
          next (snd (Next 5 buf)) (options ++ [Opt51 o]) m
      | 53%N =>
          option53 <- Option53.Decode Option53.zero (fst (Next 2 buf)) ;;
          next (snd (Next 2 buf)) (options ++ [Opt53 option53])
            (Message.setMessageType m (Option53.MessageType option53))
      | 54%N =>
          o <- Option54.Decode Option54.zero (fst (Next 5 buf)) ;;
          next (snd (Next 5 buf)) (options ++ [Opt54 o]) m
      | 58%N =>
          o <- Option58.Decode Option58.zero (fst (Next 5 buf)) ;;
          next (snd (Next 5 buf)) (options ++ [Opt58 o]) m
      | 59%N =>
          o <- Option59.Decode Option59.zero (fst (Next 5 buf)) ;;
          next (snd (Next 5 buf)) (options ++ [Opt59 o]) m
      | 61%N =>
          len <- index0 (fst (Next 1 buf)) ;;
          let r := Next (lenOf len) (snd (Next 1 buf)) in
          o <- Option61.Decode Option61.zero (fst r) ;;
          next (snd r) (options ++ [Opt61 (Option61.setLength o len)]) m
      | 108%N =>
          o <- Option108.Decode Option108.zero (fst (Next 5 buf)) ;;
          next (snd (Next 5 buf)) (options ++ [Opt108 o]) m
      | 138%N =>
          len <- index0 (fst (Next 1 buf)) ;;
          let r := Next (lenOf len) (snd (Next 1 buf)) in
          o <- orPanic (Option138_Decode (fst r) (snd r ++ spare)) ;;
          next (snd r) (options ++ [Opt138 (Option138_setLength o len)]) m
      | 255%N =>
          o <- Option255.Decode Option255.zero [xff] ;;
          next buf (options ++ [Opt255 o]) m
      | _ => Ok (Message.setOptions m options)
      end
  end.

Definition Message_Decode (m : Message) (data : list byte) : outcome Message :=
  let spare := make (bufferSpare (length data)) in
  let buf := data in
  OpCode <- index0 (fst (Next 1 buf)) ;;
  let buf := snd (Next 1 buf) in
  HardwareType <- index0 (fst (Next 1 buf)) ;;
  let buf := snd (Next 1 buf) in
  HardwareLength <- index0 (fst (Next 1 buf)) ;;
  let buf := snd (Next 1 buf) in
  Hops <- index0 (fst (Next 1 buf)) ;;
  let buf := snd (Next 1 buf) in
  let TransactionID := BytesToUint32 (fst (Next 4 buf)) in
  let buf := snd (Next 4 buf) in
  SecondsElapsed <- BytesToUint16 (fst (Next 2 buf)) ;;
  let buf := snd (Next 2 buf) in
  Flags <- BytesToUint16 (fst (Next 2 buf)) ;;
  let buf := snd (Next 2 buf) in
  let ClientIP := fst (Next 4 buf) in
  let buf := snd (Next 4 buf) in
  let YourIP := fst (Next 4 buf) in
  let buf := snd (Next 4 buf) in
  let NextServerIP := fst (Next 4 buf) in
  let buf := snd (Next 4 buf) in
  let RelayAgentIP := fst (Next 4 buf) in
  let buf := snd (Next 4 buf) in
  let HardwareAddress := fst (Next 6 buf) in
  let buf := snd (Next 6 buf) in
  let HardwareAddressPadding := fst (Next 10 buf) in
  let buf := snd (Next 10 buf) in
  let ServerHostName := fst (Next 64 buf) in
  let buf := snd (Next 64 buf) in
  let BootFile := fst (Next 128 buf) in
  let buf := snd (Next 128 buf) in
  let Cookie := fst (Next 4 buf) in
  let buf := snd (Next 4 buf) in
  let m :=
    Message.mk OpCode HardwareType HardwareLength Hops TransactionID
      SecondsElapsed Flags ClientIP YourIP NextServerIP RelayAgentIP
      (ClientHardware.mk HardwareAddress HardwareAddressPadding)
      ServerHostName BootFile Cookie (Message.Options m)
      (Message.MessageType m) in
  option <- index0 (fst (Next 1 buf)) ;;
  let buf := snd (Next 1 buf) in
  optionLoop (S (length buf)) spare option buf [] m.

(** ** The session *)

(** [b[i]] *)
Definition indexAt (b : list byte) (i : nat) : outcome byte :=
  match nth_error b i with
  | Some x => Ok x
  | None => Panic
  end.

(** [isRelay]; [&&] evaluates its right operand only when the left one
    holds. *)
Definition Conn_isRelay (c : Conn.t) : outcome bool :=
  r0 <- indexAt (Conn.relay c) 0 ;;
  if negb (Byte.eqb r0 x00) then Ok true else
  r1 <- indexAt (Conn.relay c) 1 ;;
  if negb (Byte.eqb r1 x00) then Ok true else
  r2 <- indexAt (Conn.relay c) 2 ;;
  if negb (Byte.eqb r2 x00) then Ok true else
  r3 <- indexAt (Conn.relay c) 3 ;;
  Ok (negb (Byte.eqb r3 x00)).

(** The port [listenUDP] binds. *)
Definition Conn_listenPort (c : Conn.t) : outcome Z :=
  relayed <- Conn_isRelay c ;;
  Ok (if relayed then 67%Z else 68%Z).

Definition withHostName (c : Conn.t) (options : list OptionInter)
  : list OptionInter :=
  if String.eqb (Conn.HostName c) EmptyString then options
  else options ++ [Opt12 (GenOption12 (Conn.HostName c))].

Definition Conn_Discovery (c : Conn.t) : sending Message :=
  let options :=
    withHostName c
      [Opt51 (GenOption51 7776000); Opt57 (GenOption57 1500);
       Opt61 (GenOption61 (Conn.MacByte c))] in
  let m := GenDiscoverMessage (Conn.Mac c) options in
  let m := Message.setTransactionID m (Conn.TransactionID c) in
  let m := Message.setSecondsElapsed m (Conn.SecondsElapsed c) in
  let c := Conn.setCurrentMessageType c (Message.MessageType m) in
  let m := Message.setRelayAgentIP m (Conn.relay c) in
  {| after := c; message := m; failed := WriteFails (Message_Encode m) |}.

Definition Conn_Decline (c : Conn.t) (declineIP : string) : sending Message :=
  let server := ParseIPTo4 (Conn.DhcpServerHost c) in
  let options :=
    withHostName c
      [Opt54 (GenOption54 server); Opt57 (GenOption57 1500);
       Opt61 (GenOption61 (Conn.MacByte c))] in
  let m := GenDeclineMessage (Conn.Mac c) (ParseIPTo4 declineIP) options in
  let m := Message.setTransactionID m (Conn.TransactionID c) in
  let m := Message.setSecondsElapsed m (Conn.SecondsElapsed c) in
  let c := Conn.setCurrentMessageType c (Message.MessageType m) in
  let m := Message.setRelayAgentIP m (Conn.relay c) in
  {| after := c; message := m; failed := WriteFails (Message_Encode m) |}.

Definition Conn_Release (c : Conn.t) (release : string) : sending Message :=
  let server := ParseIPTo4 (Conn.DhcpServerHost c) in
  let options :=
    withHostName c
      [Opt54 (GenOption54 server); Opt57 (GenOption57 1500);
       Opt61 (GenOption61 (Conn.MacByte c))] in
  let m := GenReleaseMessage (Conn.Mac c) (ParseIPTo4 release) options in
  let m := Message.setTransactionID m (Conn.TransactionID c) in
  let m := Message.setSecondsElapsed m (Conn.SecondsElapsed c) in
  let c := Conn.setCurrentMessageType c (Message.MessageType m) in
  let m := Message.setRelayAgentIP m (Conn.relay c) in
  {| after := c; message := m; failed := WriteFails (Message_Encode m) |}.

(** The Request that [handlerResponse] builds and sends on an Offer [m]. *)
Definition Conn_Request (c : Conn.t) (m : Message) : sending Message :=
  let options :=
    withHostName c [Opt57 (GenOption57 1500); Opt51 (GenOption51 7776000)] in
  let requestMsg := GenRequestMessage m options in
  let c := Conn.setSecondsElapsed c (Message.SecondsElapsed requestMsg) in
  let c := Conn.setCurrentMessageType c (Message.MessageType requestMsg) in
  let requestMsg := Message.setRelayAgentIP requestMsg (Conn.relay c) in
  {| after := c; message := requestMsg;
     failed := WriteFails (Message_Encode requestMsg) |}.

(** [addr] is the text [addr.String()] of the datagram's source. *)
Definition Conn_handlerResponse (c : Conn.t) (addr : string) (b : list byte)
  : outcome (handled Message) :=
  m <- Message_Decode Message_zero b ;;
  if negb (Message.TransactionID m =? Conn.TransactionID c)%Z then
    Ok {| session := c; sent := []; done := false |}
  else if Byte.eqb (Message.MessageType m) MessageTypeNak then
    let c := Conn.setRetry c (succInt (Conn.retry c)) in
    if Byte.eqb (Conn.CurrentMessageType c) MessageTypeDiscover
       && (Conn.retry c <? MaxRetryNum)%Z
    then
      let s := Conn_Discovery c in
      Ok {| session := after s; sent := [message s]; done := false |}
    else if negb (String.eqb addr (Conn.DhcpServerHost c)) then
      Ok {| session := c; sent := []; done := false |}
    else
      Ok {| session := c; sent := []; done := true |}
  else
    let c := Conn.setRetry c 0%Z in
    if Byte.eqb (Conn.CurrentMessageType c) MessageTypeDiscover
       && Byte.eqb (Message.MessageType m) MessageTypeOffer
    then
      let s := Conn_Request c m in
      if failed s then
        Ok {| session := after s; sent := [message s]; done := false |}
      else
        Ok {| session := after s; sent := [message s];
              done := Byte.eqb (Conn.CurrentMessageType (after s))
                        MessageTypeRequest
                      && Byte.eqb (Message.MessageType m) MessageTypeAck |}
    else
      Ok {| session := c; sent := [];
            done := Byte.eqb (Conn.CurrentMessageType c) MessageTypeRequest
                    && Byte.eqb (Message.MessageType m) MessageTypeAck |}.


(** The [for] loop of [listenUDP] over the reads it is given, in order.
    The read buffer has 576 bytes, so the handler gets at most the first
    576 bytes of a datagram. *)
Fixpoint listenLoop (c : Conn.t) (out : list Message) (reads : list read)
  : outcome (listened Message) :=
  match reads with
  | [] => Ok {| final := c; sentAll := out; ended := Waiting |}
  | ReadError timeout :: reads' =>
      if timeout
      then Ok {| final := c; sentAll := out; ended := Signalled |}
      else listenLoop c out reads'
  | Datagram addr payload :: reads' =>
      r <- Conn_handlerResponse c addr (firstn 576 payload) ;;
      if done r
      then Ok {| final := session r; sentAll := out ++ sent r;
                 ended := Signalled |}
      else listenLoop (session r) (out ++ sent r) reads'
  end.

(** [listenUDP]; [binds port] tells whether [net.ListenUDP] succeeds on
    the port. *)
Definition Conn_listenUDP (c : Conn.t) (binds : Z -> bool) (reads : list read)
  : outcome (listened Message) :=
  port <- Conn_listenPort c ;;
  if binds port then listenLoop c [] reads
  else Ok {| final := c; sentAll := []; ended := Unbound |}.

(** [NewDHCPRequest], given the transaction ID that [RandomTransactionID]
    draws, whether [net.ParseIP] accepts a server text, and whether the
    lookup of interface en0 and the dial succeed; [None] is the error
    return. The goroutine it starts is [Conn_listenUDP]. *)
Definition NewDHCPRequest (serverIP relay hostName mac : string) (xid : Z)
  (parses : string -> bool) (en0 dial : bool) : option Conn.t :=
  match ParseMAC mac with
  | None => None
  | Some hw =>
      if negb en0 then None
      else
        match
          (if String.eqb relay EmptyString then Some (make 4)
           else match ParseIPTo4 relay with
                | [] => None
                | r => Some r
                end)
        with
        | None => None
        | Some r =>
            let server :=
              if String.eqb serverIP EmptyString then "255.255.255.255"%string
              else serverIP in
            if negb (parses server) then None
            else if negb dial then None
            else Some (Conn.mk xid 0%Z serverIP x00 hostName mac hw 0%Z r)
        end
  end.

(** ** Notions used in the statements of further properties *)

(** The options [Decode] has a case for, in the shape in which its case
    reads them back whole: the code of the struct, a four-byte payload
    where the case reads five bytes, four-byte entries counted by the
    length byte for the address lists, and a length byte that counts the
    type byte and the identifier for option 61. *)
Definition replyOption (option : OptionInter) : bool :=
  match option with
  | Opt1 o =>
      Byte.eqb (Option1.Code o) x01 && (length (Option1.SubnetMask o) =? 4)
  | Opt3 o =>
      Byte.eqb (Option3.Code o) x03
      && forallb (fun r => length r =? 4) (Option3.Routers o)
      && (lenOf (Option3.Length o) =? 4 * length (Option3.Routers o))
  | Opt6 o =>
      Byte.eqb (Option6.Code o) x06
      && forallb (fun r => length r =? 4) (Option6.DomainNameServers o)
      && (lenOf (Option6.Length o) =? 4 * length (Option6.DomainNameServers o))
  | Opt51 o =>
      Byte.eqb (Option51.Code o) x33 && (length (Option51.LeaseTime o) =? 4)
  | Opt53 o => Byte.eqb (Option53.Code o) x35
  | Opt54 o =>
      Byte.eqb (Option54.Code o) x36
      && (length (Option54.ServerIdentifier o) =? 4)
  | Opt58 o =>
      Byte.eqb (Option58.Code o) x3a && (length (Option58.RenewalTime o) =? 4)
  | Opt59 o =>
      Byte.eqb (Option59.Code o) x3b
      && (length (Option59.RebindingTime o) =? 4)
  | Opt61 o =>
      Byte.eqb (Option61.Code o) x3d
      && (lenOf (Option61.Length o) =? S (length (Option61.ClientIdentifier o)))
  | Opt108 o =>
      Byte.eqb (Option108.Code o) x6c && (length (Option108.Value o) =? 4)
  | Opt255 o => Byte.eqb (Option255.Code o) xff
  | _ => false
  end.

(** The message type of the last option 53 of a list, [t] when it has
    none. *)
Definition lastMessageType (options : list OptionInter) (t : MessageType)
  : MessageType :=
  fold_left
    (fun t option =>
       match option with
       | Opt53 o => Option53.MessageType o
       | _ => t
       end)
    options t.

(** ** Notions used in the statements *)

(** The fixed header (RFC 2131, figure 1) read off its 240 bytes by
    offset. *)
Definition headerAt (m : Message) (h : list byte) : Message :=
  Message.mk (nth 0 h x00) (nth 1 h x00) (nth 2 h x00) (nth 3 h x00)
    (BytesToUint32 (firstn 4 (skipn 4 h)))
    (Z.lor (Z.shiftl (ofByte (nth 8 h x00)) 8) (ofByte (nth 9 h x00)))
    (Z.lor (Z.shiftl (ofByte (nth 10 h x00)) 8) (ofByte (nth 11 h x00)))
    (firstn 4 (skipn 12 h)) (firstn 4 (skipn 16 h))
    (firstn 4 (skipn 20 h)) (firstn 4 (skipn 24 h))
    (ClientHardware.mk (firstn 6 (skipn 28 h)) (firstn 10 (skipn 34 h)))
    (firstn 64 (skipn 44 h)) (firstn 128 (skipn 108 h))
    (firstn 4 (skipn 236 h))
    (Message.Options m) (Message.MessageType m).

(** The octets that [Decode] has no case for. *)
Definition unrecognized (option : byte) : Prop :=
  ~ In (Byte.to_N option) [1; 3; 6; 51; 53; 54; 58; 59; 61; 108; 138; 255]%N.

(** The messages the builders make: fixed first fields, four-byte
    addresses, a 6 + 10 byte hardware field, zeroed name fields, the
    cookie, and an option list that starts with 53 and 55. *)
Definition built (xid secs : Z) (cip : list byte) (hw : ClientHardware.t)
  (t : MessageType) (tail : list OptionInter) : Message :=
  Message.mk x01 x01 x06 x00 xid secs 0%Z cip (make 4) (make 4) (make 4) hw
    (make 64) (make 128) MagicCookie
    (Opt53 (GenOption53 t) :: Opt55 GenOption55 :: tail) t.

(** The message a datagram decodes to, the zero message where [Decode]
    does not return one. *)
Definition decoded (b : list byte) : Message :=
  match Message_Decode Message_zero b with
  | Ok m => m
  | _ => Message_zero
  end.

(** What one round of the loop does to the message. *)
Definition afterOption (m : Message) (option : OptionInter) : Message :=
  match option with
  | Opt53 o => Message.setMessageType m (Option53.MessageType o)
  | _ => m
  end.

(** A message whose fixed fields have the sizes of the wire format. *)
Definition wellSized (m : Message) : Prop :=
  (0 <= Message.TransactionID m < 4294967296)%Z
  /\ (0 <= Message.SecondsElapsed m < 65536)%Z
  /\ (0 <= Message.Flags m < 65536)%Z
  /\ length (Message.ClientIP m) = 4
  /\ length (Message.YourIP m) = 4
  /\ length (Message.NextServerIP m) = 4
  /\ length (Message.RelayAgentIP m) = 4
  /\ length (ClientHardware.HardwareAddress (Message.ClientMAC m)) = 6
  /\ length (ClientHardware.HardwareAddressPadding (Message.ClientMAC m)) = 10
  /\ length (Message.ServerHostName m) = 64
  /\ length (Message.BootFile m) = 128
  /\ length (Message.MagicCookie m) = 4.

(** The code octet of an option, by which the specification names the
    options (option 54, option 61): the code field of its record; for
    option 138 what the platform's type reports. *)
Definition codeOctet (option : OptionInter) : byte :=
  match option with
  | Opt1 o => Option1.Code o
  | Opt3 o => Option3.Code o
  | Opt6 o => Option6.Code o
  | Opt12 o => Option12.Code o
  | Opt50 o => Option50.Code o
  | Opt51 o => Option51.Code o
  | Opt53 o => Option53.Code o
  | Opt54 o => Option54.Code o
  | Opt55 o => Option55.Code o
  | Opt57 o => Option57.Code o
  | Opt58 o => Option58.Code o
  | Opt59 o => Option59.Code o
  | Opt61 o => Option61.Code o
  | Opt108 o => Option108.Code o
  | Opt138 o => Option138_GetCode o
  | Opt255 o => Option255.Code o
  end.

(** The first option of a list that carries the code, as a list of at most
    one option: what is copied verbatim if present. *)
Fixpoint firstCarrying (code : byte) (options : list OptionInter)
  : list OptionInter :=
  match options with
  | [] => []
  | option :: rest =>
      if Byte.eqb (codeOctet option) code then [option]
      else firstCarrying code rest
  end.

(** The natural encoding of a message: every field whole, in the order of
    the wire format (RFC 2131, figure 1), then every option's encoding. *)
Definition naturalEncoding (m : Message) : list byte :=
  [Message.OpCode m; Message.HardwareType m; Message.HardwareLength m;
   Message.Hops m]
    ++ Uint32ToBytes (Message.TransactionID m)
    ++ Uint16ToBytes (Message.SecondsElapsed m)
    ++ Uint16ToBytes (Message.Flags m)
    ++ Message.ClientIP m ++ Message.YourIP m
    ++ Message.NextServerIP m ++ Message.RelayAgentIP m
    ++ (ClientHardware.HardwareAddress (Message.ClientMAC m)
          ++ ClientHardware.HardwareAddressPadding (Message.ClientMAC m))
    ++ Message.ServerHostName m ++ Message.BootFile m
    ++ Message.MagicCookie m
    ++ concat (map OptionInter_Encode (Message.Options m)).

(** ** Example data

    A session for the server 10.0.0.2 behind the relay 10.0.0.1, as
    [NewDHCPRequest] leaves it, and a 300-byte reply of type [t] in
    transaction [xid]: yiaddr 10.0.0.5, option 53, option 54 = 10.0.0.1,
    the End option and zero padding. *)

Definition exampleSession : Conn.t :=
  Conn.mk 305419896%Z 0%Z "10.0.0.2" x00 EmptyString "00:00:00:00:00:01"
    (bytes [0; 0; 0; 0; 0; 1]%Z) 0%Z (bytes [10; 0; 0; 1]%Z).

Definition exampleReply (xid : Z) (t : byte) : list byte :=
  bytes [2; 1; 6; 0]%Z ++ Uint32ToBytes xid ++ make 8
    ++ bytes [10; 0; 0; 5]%Z ++ make 8
    ++ bytes [0; 0; 0; 0; 0; 1]%Z ++ make 10 ++ make 192 ++ MagicCookie
    ++ [x35; x01; t] ++ bytes [54; 4; 10; 0; 0; 1]%Z ++ [xff] ++ make 50.

(** A 300-byte Offer in transaction [xid] whose elapsed-seconds field is
    [secs]: yiaddr 10.0.0.5, option 53, option 54 = 10.0.0.1, option 61 =
    the hardware address, the End option and zero padding. *)
Definition exampleOffer (xid secs : Z) : list byte :=
  bytes [2; 1; 6; 0]%Z ++ Uint32ToBytes xid ++ Uint16ToBytes secs ++ make 6
    ++ bytes [10; 0; 0; 5]%Z ++ make 8
    ++ bytes [0; 0; 0; 0; 0; 1]%Z ++ make 10 ++ make 192 ++ MagicCookie
    ++ [x35; x01; MessageTypeOffer] ++ bytes [54; 4; 10; 0; 0; 1]%Z
    ++ bytes [61; 7; 1; 0; 0; 0; 0; 0; 1]%Z ++ [xff] ++ make 41.

(** The options of the example reply. *)
Definition exampleOptions (t : byte) : list OptionInter :=
  [Opt53 (Option53.mk x35 x01 t);
   Opt54 (Option54.mk x36 x04 (bytes [10; 0; 0; 1]%Z));
   Opt255 (Option255.mk xff)].

(** * Properties *)

Unset Implicit Arguments.

(** ** Bytes and integers *)

Lemma ofByte_range (b : byte) : (0 <= ofByte b < 256)%Z.
Proof.
  unfold ofByte. pose proof (Byte.to_N_bounded b). lia.
Qed.

Lemma ofByte_uint8 (z : Z) : ofByte (uint8 z) = (z mod 256)%Z.
Proof.
  unfold ofByte, uint8.
  assert (Hr : (0 <= z mod 256 < 256)%Z) by (apply Z.mod_pos_bound; lia).
  destruct (Byte.of_N (Z.to_N (z mod 256))) as [b|] eqn:E.
  - apply Byte.to_of_N in E. rewrite E. apply Z2N.id. lia.
  - apply Byte.of_N_None_iff in E. lia.
Qed.

Lemma uint8_ofByte (b : byte) : uint8 (ofByte b) = b.
Proof.
  unfold uint8. pose proof (ofByte_range b) as Hr.
  rewrite Z.mod_small by exact Hr.
  unfold ofByte. rewrite N2Z.id, Byte.of_to_N. reflexivity.
Qed.

(** Bit [n] of the octet that [byte(x >> k)] keeps, put back at position
    [k]. *)
Lemma testbit_octet (x k n : Z) :
  (0 <= k)%Z -> (0 <= n)%Z ->
  Z.testbit (Z.shiftl (ofByte (uint8 (Z.shiftr x k))) k) n
  = ((k <=? n)%Z && (n <? k + 8)%Z && Z.testbit x n)%bool.
Proof.
  intros Hk Hn. rewrite ofByte_uint8, Z.shiftl_spec by exact Hn.
  destruct (Z.leb_spec k n) as [Hle|Hlt].
  - change 256%Z with (2 ^ 8)%Z.
    rewrite Z.testbit_mod_pow2 by lia.
    rewrite Z.shiftr_spec by lia.
    replace (n - k + k)%Z with n by lia.
    destruct (Z.ltb_spec (n - k) 8), (Z.ltb_spec n (k + 8)); try lia; reflexivity.
  - rewrite Z.testbit_neg_r by lia. reflexivity.
Qed.

Lemma testbit_octet0 (x n : Z) :
  (0 <= n)%Z ->
  Z.testbit (ofByte (uint8 x)) n = ((n <? 8)%Z && Z.testbit x n)%bool.
Proof.
  intros Hn. rewrite ofByte_uint8. change 256%Z with (2 ^ 8)%Z.
  apply Z.testbit_mod_pow2. lia.
Qed.

Lemma testbit_above (x w n : Z) :
  (0 <= x < 2 ^ w)%Z -> (w <= n)%Z -> Z.testbit x n = false.
Proof.
  intros Hx Hn. rewrite <- (Z.mod_small x (2 ^ w)) by exact Hx.
  apply Z.mod_pow2_bits_high.
  assert (0 <= w)%Z.
  { destruct (Z.leb_spec 0 w); [assumption|].
    rewrite Z.pow_neg_r in Hx by lia. lia. }
  lia.
Qed.

Lemma BytesToUint16_Uint16ToBytes (x : Z) :
  (0 <= x < 65536)%Z -> BytesToUint16 (Uint16ToBytes x) = Ok x.
Proof.
  intros Hx. unfold BytesToUint16, Uint16ToBytes. f_equal.
  apply Z.bits_inj'. intros n Hn.
  rewrite Z.lor_spec, testbit_octet, testbit_octet0 by lia.
  destruct (Z.ltb_spec n 16) as [Hlt|Hge].
  - destruct (Z.leb_spec 8 n), (Z.ltb_spec n (8 + 8)), (Z.ltb_spec n 8);
      try lia; cbn; rewrite ?orb_false_r; reflexivity.
  - rewrite (testbit_above x 16) by lia.
    rewrite !andb_false_r. reflexivity.
Qed.

Lemma BytesToUint32_Uint32ToBytes (x : Z) :
  (0 <= x < 4294967296)%Z -> BytesToUint32 (Uint32ToBytes x) = x.
Proof.
  intros Hx. unfold BytesToUint32, Uint32ToBytes.
  apply Z.bits_inj'. intros n Hn.
  rewrite !Z.lor_spec, !testbit_octet, testbit_octet0 by lia.
  destruct (Z.ltb_spec n 32) as [Hlt|Hge].
  - destruct (Z.leb_spec 24 n), (Z.ltb_spec n (24 + 8)),
      (Z.leb_spec 16 n), (Z.ltb_spec n (16 + 8)),
      (Z.leb_spec 8 n), (Z.ltb_spec n (8 + 8)), (Z.ltb_spec n 8);
      try lia; cbn; rewrite ?orb_false_r; reflexivity.
  - rewrite (testbit_above x 32) by lia.
    rewrite !andb_false_r. reflexivity.
Qed.

Lemma BytesToUint16_fuel (data : list byte) : BytesToUint16 data <> OutOfFuel.
Proof.
  destruct data as [|d0 [|d1 [|d2 data]]]; discriminate.
Qed.

Lemma index0_fuel (b : list byte) : index0 b <> OutOfFuel.
Proof.
  destruct b; discriminate.
Qed.

(** ** Encode *)

Lemma padLoop_repeat (diff : nat) (buf : list byte) :
  padLoop diff buf = buf ++ repeat x00 diff.
Proof.
  revert buf. induction diff as [|diff IH]; intros buf; cbn [padLoop repeat].
  - symmetry. apply app_nil_r.
  - rewrite IH, <- app_assoc. reflexivity.
Qed.

Lemma Message_Encode_padded (m : Message) :
  Message_Encode m
  = Message_unpadded m
      ++ repeat x00 (MinRequestLength - length (Message_unpadded m)).
Proof.
  unfold Message_Encode. apply padLoop_repeat.
Qed.

(** C6. Whatever the message, its encoding is its natural encoding (every
    field whole, then the options) followed by as many zero bytes as are
    missing to 300: it has at least 300 bytes, and a natural encoding of
    300 bytes or more is returned as it is, uncut and unpadded. With
    fields of the sizes of the wire format the natural encoding is 240
    bytes and the options. *)
Theorem Message_Encode_length (m : Message) :
  Message_Encode m
  = naturalEncoding m ++ repeat x00 (300 - length (naturalEncoding m))
  /\ 300 <= length (Message_Encode m)
  /\ length (Message_Encode m) = Nat.max 300 (length (naturalEncoding m))
  /\ (300 <= length (naturalEncoding m) ->
      Message_Encode m = naturalEncoding m)
  /\ (wellSized m ->
      length (naturalEncoding m)
      = 240 + length (concat (map OptionInter_Encode (Message.Options m)))).
Proof.
  assert (Hn : Message_unpadded m = naturalEncoding m).
  { unfold Message_unpadded, naturalEncoding. rewrite flat_map_concat_map.
    reflexivity. }
  assert (He : Message_Encode m
               = naturalEncoding m
                   ++ repeat x00 (300 - length (naturalEncoding m))).
  { rewrite Message_Encode_padded, Hn. reflexivity. }
  split; [exact He|].
  split; [rewrite He, length_app, repeat_length; lia|].
  split; [rewrite He, length_app, repeat_length; lia|].
  split.
  - intros Hlen. rewrite He.
    replace (300 - length (naturalEncoding m)) with 0 by lia.
    apply app_nil_r.
  - intros (_ & _ & _ & Hc & Hy & Hs & Hg & Hh & Hp & Hsn & Hb & Hk).
    unfold naturalEncoding.
    rewrite !length_app, Hc, Hy, Hs, Hg, Hh, Hp, Hsn, Hb, Hk.
    reflexivity.
Qed.

(** ** Builders *)

Lemma getOption_find (options : list OptionInter) (code : byte) :
  getOption options code
  = find (fun option => Byte.eqb (OptionInter_GetCode option) code) options.
Proof.
  induction options as [|option rest IH]; cbn [getOption find].
  - reflexivity.
  - rewrite IH. reflexivity.
Qed.

(** [getOption] finds the first option that carries the code. *)
Lemma getOption_firstCarrying (options : list OptionInter) (code : byte) :
  optionToList (getOption options code) = firstCarrying code options.
Proof.
  induction options as [|option rest IH]; cbn [getOption firstCarrying].
  - reflexivity.
  - replace (OptionInter_GetCode option) with (codeOctet option)
      by (destruct option; reflexivity).
    destruct (Byte.eqb (codeOctet option) code); [reflexivity | exact IH].
Qed.

(** C4, as the code has it. The Request built from an offer has the
    offer's transaction ID and client hardware field, and the offer's
    elapsed seconds plus one in the 16 bits of the field: plainly plus one
    below 65535, and 0 for an offer at 65535. Its options are, in this
    order: 53 = Request (3), 55 with the default parameter list, 50 with
    the offer's YourIP, the extra options, the first option of the offer
    that carries code 54 and the first that carries code 61, each copied
    as it is and left out when the offer has none, and 255. *)
Theorem GenRequestMessage_fields (offer : Message) (options : list OptionInter) :
  let m := GenRequestMessage offer options in
  Message.TransactionID m = Message.TransactionID offer
  /\ Message.ClientMAC m = Message.ClientMAC offer
  /\ Message.SecondsElapsed m
     = ((Message.SecondsElapsed offer + 1) mod 2 ^ 16)%Z
  /\ ((0 <= Message.SecondsElapsed offer < 65535)%Z ->
      Message.SecondsElapsed m = (Message.SecondsElapsed offer + 1)%Z)
  /\ (Message.SecondsElapsed offer = 65535%Z ->
      Message.SecondsElapsed m = 0%Z)
  /\ Message.Options m
     = [Opt53 (Option53.mk x35 x01 x03);
        Opt55 (Option55.mk x37 x0a
                 (bytes [1; 3; 6; 15; 46; 108; 114; 119; 121; 252]%Z));
        Opt50 (Option50.mk x32 x04 (Message.YourIP offer))]
         ++ options
         ++ firstCarrying x36 (Message.Options offer)
         ++ firstCarrying x3d (Message.Options offer)
         ++ [Opt255 (Option255.mk xff)]
  /\ Message.MessageType m = MessageTypeRequest.
Proof.
  cbv zeta. unfold GenRequestMessage, Message_getOption.
  rewrite !getOption_firstCarrying.
  cbn [Message.TransactionID Message.ClientMAC Message.SecondsElapsed
       Message.Options Message.MessageType].
  split; [reflexivity|]. split; [reflexivity|]. split; [reflexivity|].
  split; [|split; [|split; reflexivity]].
  - intros Hs. unfold succ16. apply Z.mod_small. lia.
  - intros Hs. unfold succ16. rewrite Hs. reflexivity.
Qed.

(** The option 50 of a Request goes on the wire as 50, 4 and the address. *)
Lemma GenOption50_Encode (address : list byte) :
  OptionInter_Encode (Opt50 (GenOption50 address)) = x32 :: x04 :: address.
Proof.
  reflexivity.
Qed.

(** C10. When the MAC text does not parse, [GenClientHardware] reports the
    error but the builders drop it: they return a message all the same,
    its client-hardware field is the zero value, and that field takes no
    byte of the encoding where a parsed one takes sixteen, so the magic
    cookie directly follows the 192 bytes of the two name fields. *)
Theorem builders_discard_ParseMAC_error
  (mac : string) (ip : list byte) (options : list OptionInter) :
  ParseMAC mac = None ->
  snd (GenClientHardware mac) = true
  /\ Message.ClientMAC (GenDiscoverMessage mac options) = ClientHardware.zero
  /\ Message.ClientMAC (GenDeclineMessage mac ip options) = ClientHardware.zero
  /\ Message.ClientMAC (GenReleaseMessage mac ip options) = ClientHardware.zero
  /\ ClientHardware.Encode ClientHardware.zero = []
  /\ Message_unpadded (GenDiscoverMessage mac options)
     = bytes [1; 1; 6; 0]%Z ++ make 24 ++ make 192 ++ MagicCookie
         ++ flat_map OptionInter_Encode
              (Message.Options (GenDiscoverMessage mac options))
  /\ Message_unpadded (GenDeclineMessage mac ip options)
     = bytes [1; 1; 6; 0]%Z ++ make 24 ++ make 192 ++ MagicCookie
         ++ flat_map OptionInter_Encode
              (Message.Options (GenDeclineMessage mac ip options))
  /\ Message_unpadded (GenReleaseMessage mac ip options)
     = bytes [1; 1; 6; 0]%Z ++ make 8 ++ ip ++ make 12 ++ make 192
         ++ MagicCookie
         ++ flat_map OptionInter_Encode
              (Message.Options (GenReleaseMessage mac ip options)).
Proof.
  intros Hmac.
  assert (Hhw : GenClientHardware mac = (ClientHardware.zero, true)).
  { unfold GenClientHardware. rewrite Hmac. reflexivity. }
  unfold GenDiscoverMessage, GenDeclineMessage, GenReleaseMessage,
    Message_unpadded.
  rewrite Hhw.
  cbn [fst snd Message.ClientMAC Message.OpCode Message.HardwareType
       Message.HardwareLength Message.Hops Message.TransactionID
       Message.SecondsElapsed Message.Flags Message.ClientIP Message.YourIP
       Message.NextServerIP Message.RelayAgentIP Message.ServerHostName
       Message.BootFile Message.MagicCookie Message.Options].
  repeat split.
Qed.

(** ** The session handler *)

Lemma succInt_small (x : Z) :
  (0 <= x < 9223372036854775807)%Z -> succInt x = (x + 1)%Z.
Proof.
  intros Hx. unfold succInt.
  rewrite Z.mod_small by lia. lia.
Qed.

(** C5. A datagram that decodes to a message with another transaction ID
    leaves the session as it is (state, retry counter, elapsed seconds and
    all other fields), sends nothing and does not signal completion,
    whatever the type of the message. *)
Theorem handlerResponse_other_transaction
  (c : Conn.t) (addr : string) (b : list byte) (m : Message) :
  Message_Decode Message_zero b = Ok m ->
  Message.TransactionID m <> Conn.TransactionID c ->
  Conn_handlerResponse c addr b
  = Ok {| session := c; sent := []; done := false |}.
Proof.
  intros Hm Hx. unfold Conn_handlerResponse. rewrite Hm. cbn [bind].
  destruct (Z.eqb_spec (Message.TransactionID m) (Conn.TransactionID c))
    as [Heq|Hne]; [contradiction|reflexivity].
Qed.

(** C3, as the code has it. A NAK of the session's own transaction only
    counts: the retry counter goes up by one, no Discover (nothing at all)
    is sent, in whatever state the session is, and the call asks for
    completion exactly when the source text equals the configured server
    host. The counter is incremented before it is compared with
    [MaxRetryNum = 1], so the branch that sends the Discover again is never
    taken. *)
Theorem handlerResponse_Nak_sends_nothing
  (c : Conn.t) (addr : string) (b : list byte) (m : Message) :
  Message_Decode Message_zero b = Ok m ->
  Message.TransactionID m = Conn.TransactionID c ->
  Message.MessageType m = MessageTypeNak ->
  (0 <= Conn.retry c < 9223372036854775807)%Z ->
  Conn_handlerResponse c addr b
  = Ok {| session := Conn.setRetry c (Conn.retry c + 1);
          sent := [];
          done := String.eqb addr (Conn.DhcpServerHost c) |}.
Proof.
  intros Hm Hx Ht Hr. unfold Conn_handlerResponse. rewrite Hm. cbn [bind].
  rewrite Hx, Z.eqb_refl, Ht. cbn [negb].
  change (Byte.eqb MessageTypeNak MessageTypeNak) with true. cbv iota.
  rewrite succInt_small by exact Hr.
  cbn [Conn.retry Conn.setRetry Conn.CurrentMessageType Conn.DhcpServerHost].
  replace (Conn.retry c + 1 <? MaxRetryNum)%Z with false
    by (symmetry; apply Z.ltb_ge; unfold MaxRetryNum; lia).
  rewrite andb_false_r.
  destruct (String.eqb addr (Conn.DhcpServerHost c)); reflexivity.
Qed.

(** C9, as the code has it. A message of the session's own transaction that
    is no NAK, no Offer to a session that last sent a Discover and no Ack to
    a session that last sent a Request is ignored up to the retry counter:
    the state and the elapsed seconds stay, nothing is sent, completion is
    not signalled, and the retry counter is set to zero. *)
Theorem handlerResponse_other_combination
  (c : Conn.t) (addr : string) (b : list byte) (m : Message) :
  Message_Decode Message_zero b = Ok m ->
  Message.TransactionID m = Conn.TransactionID c ->
  Message.MessageType m <> MessageTypeNak ->
  ~ (Conn.CurrentMessageType c = MessageTypeDiscover
     /\ Message.MessageType m = MessageTypeOffer) ->
  ~ (Conn.CurrentMessageType c = MessageTypeRequest
     /\ Message.MessageType m = MessageTypeAck) ->
  Conn_handlerResponse c addr b
  = Ok {| session := Conn.setRetry c 0; sent := []; done := false |}.
Proof.
  intros Hm Hx Hnak Hoffer Hack.
  unfold Conn_handlerResponse. rewrite Hm. cbn [bind].
  rewrite Hx, Z.eqb_refl. cbn [negb].
  destruct (Byte.eqb (Message.MessageType m) MessageTypeNak) eqn:En.
  { apply Byte.byte_dec_bl in En. contradiction. }
  cbn [Conn.CurrentMessageType Conn.setRetry].
  destruct (Byte.eqb (Conn.CurrentMessageType c) MessageTypeDiscover) eqn:Ed;
    destruct (Byte.eqb (Message.MessageType m) MessageTypeOffer) eqn:Eo;
    cbn [andb];
    try (apply Byte.byte_dec_bl in Ed; apply Byte.byte_dec_bl in Eo;
         exfalso; apply Hoffer; split; assumption);
    (destruct (Byte.eqb (Conn.CurrentMessageType c) MessageTypeRequest) eqn:Er;
     destruct (Byte.eqb (Message.MessageType m) MessageTypeAck) eqn:Ea;
     cbn [andb];
     try (apply Byte.byte_dec_bl in Er; apply Byte.byte_dec_bl in Ea;
          exfalso; apply Hack; split; assumption);
     reflexivity).
Qed.

(** ** Relay addressing *)





(** ** Decode: the loop never wants for fuel *)

Lemma chunks4_fuel (n i : nat) (b spare : list byte) (acc : list (list byte)) :
  chunks4 n i b spare acc <> OutOfFuel.
Proof.
  revert i acc. induction n as [|n IH]; intros i acc; cbn [chunks4].
  - discriminate.
  - unfold slice. destruct (i + 4 <=? length b + length spare); cbn [bind].
    + apply IH.
    + discriminate.
Qed.

Lemma decoders_fuel (b spare : list byte) (len : byte) (o3 : Option3.t)
  (o6 : Option6.t) :
  Option1.Decode Option1.zero b <> OutOfFuel
  /\ Option3.Decode o3 len b spare <> OutOfFuel
  /\ Option6.Decode o6 len b spare <> OutOfFuel
  /\ Option51.Decode Option51.zero b <> OutOfFuel
  /\ Option53.Decode Option53.zero b <> OutOfFuel
  /\ Option54.Decode Option54.zero b <> OutOfFuel
  /\ Option58.Decode Option58.zero b <> OutOfFuel
  /\ Option59.Decode Option59.zero b <> OutOfFuel
  /\ Option61.Decode Option61.zero b <> OutOfFuel
  /\ Option108.Decode Option108.zero b <> OutOfFuel
  /\ Option255.Decode Option255.zero b <> OutOfFuel
  /\ orPanic (Option138_Decode b spare) <> OutOfFuel.
Proof.
  unfold Option3.Decode, Option6.Decode.
  pose proof (chunks4_fuel (iterations4 len) 0 b spare (Option3.Routers o3)).
  pose proof (chunks4_fuel (iterations4 len) 0 b spare
                (Option6.DomainNameServers o6)).
  destruct (chunks4 _ _ _ _ (Option3.Routers o3));
    destruct (chunks4 _ _ _ _ (Option6.DomainNameServers o6));
    destruct (Option138_Decode b spare);
    destruct b as [|b0 [|b1 b]]; cbn; repeat split; congruence.
Qed.

Ltac decoder_fuel E :=
  exfalso; revert E;
  first
    [ apply index0_fuel
    | match goal with
      | |- Option1.Decode _ ?b = _ -> _ =>
          apply (decoders_fuel b [] x00 Option3.zero Option6.zero)
      | |- Option51.Decode _ ?b = _ -> _ =>
          apply (decoders_fuel b [] x00 Option3.zero Option6.zero)
      | |- Option53.Decode _ ?b = _ -> _ =>
          apply (decoders_fuel b [] x00 Option3.zero Option6.zero)
      | |- Option54.Decode _ ?b = _ -> _ =>
          apply (decoders_fuel b [] x00 Option3.zero Option6.zero)
      | |- Option58.Decode _ ?b = _ -> _ =>
          apply (decoders_fuel b [] x00 Option3.zero Option6.zero)
      | |- Option59.Decode _ ?b = _ -> _ =>
          apply (decoders_fuel b [] x00 Option3.zero Option6.zero)
      | |- Option61.Decode _ ?b = _ -> _ =>
          apply (decoders_fuel b [] x00 Option3.zero Option6.zero)
      | |- Option108.Decode _ ?b = _ -> _ =>
          apply (decoders_fuel b [] x00 Option3.zero Option6.zero)
      | |- Option255.Decode _ ?b = _ -> _ =>
          apply (decoders_fuel b [] x00 Option3.zero Option6.zero)
      | |- Option3.Decode ?o ?len ?b ?spare = _ -> _ =>
          apply (decoders_fuel b spare len o Option6.zero)
      | |- Option6.Decode ?o ?len ?b ?spare = _ -> _ =>
          apply (decoders_fuel b spare len Option3.zero o)
      | |- orPanic (Option138_Decode ?b ?spare) = _ -> _ =>
          apply (decoders_fuel b spare x00 Option3.zero Option6.zero)
      end ].

Lemma length_skipn_cons (n : nat) (buf rest : list byte) (x : byte) :
  skipn n buf = x :: rest -> length rest < length buf.
Proof.
  intros E. apply (f_equal (@length byte)) in E.
  rewrite length_skipn in E. cbn [length] in E. lia.
Qed.

Lemma optionLoop_fuel (fuel : nat) :
  forall spare option buf options m,
    length buf < fuel ->
    optionLoop fuel spare option buf options m <> OutOfFuel.
Proof.
  induction fuel as [|fuel IH]; intros spare option buf options m Hlen;
    [lia|].
  cbn [optionLoop]. unfold Next; cbn [fst snd].
  destruct option; cbn [Byte.to_N Byte.to_bits]; cbv beta iota zeta;
    try discriminate;
    repeat match goal with
      | |- bind ?x _ <> OutOfFuel =>
          let E := fresh "E" in
          destruct x eqn:E; cbn [bind];
          [ | discriminate | decoder_fuel E ]
      | |- match ?l with [] => _ | _ :: _ => _ end <> OutOfFuel =>
          let E := fresh "E" in
          destruct l eqn:E; [discriminate | apply IH]
      end.
  all: try (rewrite ?skipn_skipn in *;
       match goal with
       | E : skipn _ _ = _ :: _ |- _ => apply length_skipn_cons in E; lia
       end).
  all: subst; cbn [length] in Hlen; lia.
Qed.

(** ** Decode: the fixed header *)

Lemma bind_fuel (A B : Type) (x : outcome A) (k : A -> outcome B) :
  x <> OutOfFuel -> (forall a, k a <> OutOfFuel) -> bind x k <> OutOfFuel.
Proof.
  intros Hx Hk. destruct x; cbn [bind]; [apply Hk | discriminate | contradiction].
Qed.

(** Decode returns or panics: the fuel it gives the loop is enough. *)
Lemma Message_Decode_fuel (m : Message) (data : list byte) :
  Message_Decode m data <> OutOfFuel.
Proof.
  cbv beta zeta delta [Message_Decode].
  repeat (apply bind_fuel;
          [first [apply index0_fuel | apply BytesToUint16_fuel] | intros ?]).
  apply optionLoop_fuel. lia.
Qed.

Lemma firstn_skipn_app (h t : list byte) (j k : nat) :
  j + k <= length h -> firstn k (skipn j (h ++ t)) = firstn k (skipn j h).
Proof.
  intros H. rewrite skipn_app, firstn_app, length_skipn.
  replace (k - (length h - j)) with 0 by lia.
  cbn [firstn]. apply app_nil_r.
Qed.

Lemma skipn_app_exact (h t : list byte) (n : nat) :
  length h = n -> skipn n (h ++ t) = t.
Proof.
  intros <-. rewrite skipn_app, skipn_all, Nat.sub_diag. reflexivity.
Qed.

Lemma index0_at (h : list byte) (j : nat) :
  j < length h -> index0 (firstn 1 (skipn j h)) = Ok (nth j h x00).
Proof.
  revert j. induction h as [|x h IH]; intros j Hj; cbn [length] in Hj.
  - lia.
  - destruct j as [|j].
    + reflexivity.
    + cbn [skipn nth]. apply IH. lia.
Qed.

Lemma BytesToUint16_at (h : list byte) (j : nat) :
  j + 2 <= length h ->
  BytesToUint16 (firstn 2 (skipn j h))
  = Ok (Z.lor (Z.shiftl (ofByte (nth j h x00)) 8)
              (ofByte (nth (S j) h x00))).
Proof.
  revert j. induction h as [|x h IH]; intros j Hj; cbn [length] in Hj.
  - lia.
  - destruct j as [|j].
    + destruct h as [|y h]; [cbn [length] in Hj; lia|]. reflexivity.
    + cbn [skipn nth]. apply IH. lia.
Qed.

Lemma Message_Decode_header (m : Message) (h rest : list byte) (option : byte) :
  length h = 240 ->
  Message_Decode m (h ++ option :: rest)
  = optionLoop (S (length rest))
      (make (bufferSpare (length (h ++ option :: rest))))
      option rest [] (headerAt m h).
Proof.
  intros Hh. cbv beta zeta iota delta [Message_Decode Next fst snd].
  set (spare := make _).
  rewrite <- (skipn_O (h ++ option :: rest)).
  rewrite !skipn_skipn. cbn [Nat.add].
  change 241 with (1 + 240). rewrite <- (skipn_skipn 1 240).
  rewrite (skipn_app_exact h (option :: rest) 240 Hh).
  change (firstn 1 (option :: rest)) with [option].
  change (skipn 1 (option :: rest)) with rest.
  change (index0 [option]) with (Ok option).
  rewrite !firstn_skipn_app by lia.
  rewrite !index0_at by lia.
  rewrite !BytesToUint16_at by lia.
  cbn [bind]. reflexivity.
Qed.

(** ** Decode: short datagrams, the End option, unknown codes *)

(** An octet without a case ends the loop: the options parsed so far are
    kept, and nothing after the octet is read. *)

Lemma bind_Panic (A B : Type) (x : outcome A) (k : A -> outcome B) :
  x <> OutOfFuel -> (forall a, k a = Panic) -> bind x k = Panic.
Proof.
  intros Hx Hk. destruct x; cbn [bind]; [apply Hk | reflexivity | contradiction].
Qed.

(** C1, as the code has it. [Decode] checks none of its reads: the four
    one-byte fields and the two 16-bit fields are indexed without a look at
    the length, and so is the first option code at offset 240. Every
    datagram of 240 bytes or fewer therefore makes [Decode] panic; none is
    turned into a malformed-message outcome. *)
Theorem Message_Decode_short_panics (m : Message) (data : list byte) :
  length data <= 240 -> Message_Decode m data = Panic.
Proof.
  intros Hlen. cbv beta zeta iota delta [Message_Decode Next fst snd].
  rewrite <- (skipn_O data).
  rewrite !skipn_skipn. cbn [Nat.add].
  rewrite (@skipn_all2 _ 240 data Hlen).
  change (index0 (firstn 1 [])) with (@Panic byte).
  repeat (apply bind_Panic;
          [first [apply index0_fuel | apply BytesToUint16_fuel] | intros ?]).
  reflexivity.
Qed.

Lemma optionLoop_unrecognized
  (fuel : nat) (spare : list byte) (option : byte) (buf : list byte)
  (options : list OptionInter) (m : Message) :
  unrecognized option ->
  optionLoop (S fuel) spare option buf options m
  = Ok (Message.setOptions m options).
Proof.
  unfold unrecognized. intros Hu. cbn [optionLoop].
  destruct option; cbn [Byte.to_N Byte.to_bits]; cbv beta iota zeta;
    try reflexivity; exfalso; apply Hu; cbn; tauto.
Qed.

(** Wherever the loop meets the End octet, it records the option and
    reads the next code byte from the buffer. *)
Lemma optionLoop_End
  (fuel : nat) (spare buf : list byte) (options : list OptionInter)
  (m : Message) :
  optionLoop (S fuel) spare xff buf options m
  = match buf with
    | [] => Panic
    | option :: rest =>
        optionLoop fuel spare option rest
          (options ++ [Opt255 (Option255.mk xff)]) m
    end.
Proof.
  reflexivity.
Qed.

(** C7, as the code has it. The case for code 255 records the End option
    and goes on with the next byte. So a datagram that ends with its End
    octet makes [Decode] panic, and bytes that follow an End octet are
    still parsed as options: here a type-53 option after it is decoded and
    sets the message type. Only an octet without a case stops the loop
    (lemmas [optionLoop_End] and [optionLoop_unrecognized]); the zero
    padding does that job in the datagrams that are padded. *)
Theorem Message_Decode_End_goes_on
  (m : Message) (h : list byte) (t : byte) :
  length h = 240 ->
  Message_Decode m (h ++ [xff]) = Panic
  /\ Message_Decode m (h ++ [xff; x35; x01; t; x00])
     = Ok (Message.setOptions
             (Message.setMessageType (headerAt m h) t)
             [Opt255 (Option255.mk xff); Opt53 (Option53.mk x35 x01 t)]).
Proof.
  intros Hh. split.
  - rewrite (Message_Decode_header m h [] xff Hh). reflexivity.
  - rewrite (Message_Decode_header m h [x35; x01; t; x00] xff Hh).
    destruct t; reflexivity.
Qed.

(** ** Decode after Encode *)

Lemma Message_Decode_layout (m : Message) (data : list byte) :
  240 < length data ->
  Message_Decode m data
  = optionLoop (S (length (skipn 241 data)))
      (make (bufferSpare (length data)))
      (nth 240 data x00) (skipn 241 data) [] (headerAt m (firstn 240 data)).
Proof.
  intros Hlen.
  assert (Hh : length (firstn 240 data) = 240)
    by (rewrite length_firstn; lia).
  assert (Ht : skipn 240 data = nth 240 data x00 :: skipn 241 data).
  { clear Hh. revert Hlen. generalize 240 as n. intros n. revert data.
    induction n as [|n IH]; intros data Hlen.
    - destruct data; [cbn in Hlen; lia | reflexivity].
    - destruct data as [|x data]; [cbn in Hlen; lia|].
      cbn [length] in Hlen. apply (IH data). lia. }
  pose proof (Message_Decode_header m (firstn 240 data) (skipn 241 data)
                (nth 240 data x00) Hh) as H.
  rewrite <- Ht, firstn_skipn in H. exact H.
Qed.

Lemma optionLoop_53 (fuel : nat) (spare : list byte) (l t c : byte)
  (buf : list byte) (options : list OptionInter) (m : Message) :
  optionLoop (S fuel) spare x35 (l :: t :: c :: buf) options m
  = optionLoop fuel spare c buf (options ++ [Opt53 (Option53.mk x35 l t)])
      (Message.setMessageType m t).
Proof.
  reflexivity.
Qed.

Lemma u16_bytes (x : Z) :
  (0 <= x < 65536)%Z ->
  Z.lor (Z.shiftl (ofByte (uint8 (Z.shiftr x 8))) 8) (ofByte (uint8 x)) = x.
Proof.
  intros Hx. pose proof (BytesToUint16_Uint16ToBytes x Hx) as H.
  unfold BytesToUint16, Uint16ToBytes in H. congruence.
Qed.

Lemma Message_Decode_built
  (m0 : Message) (xid secs : Z) (cip : list byte) (hw : ClientHardware.t)
  (t : MessageType) (tail : list OptionInter) :
  (0 <= xid < 4294967296)%Z -> (0 <= secs < 65536)%Z ->
  length cip = 4 ->
  length (ClientHardware.HardwareAddress hw) = 6 ->
  length (ClientHardware.HardwareAddressPadding hw) = 10 ->
  Message_Decode m0 (Message_Encode (built xid secs cip hw t tail))
  = Ok (Message.setOptions (built xid secs cip hw t tail)
          [Opt53 (GenOption53 t)]).
Proof.
  intros Hxid Hsecs Hc Hhw Hpad.
  destruct hw as [hw pad]. cbn [ClientHardware.HardwareAddress
    ClientHardware.HardwareAddressPadding] in Hhw, Hpad.
  destruct cip as [|c0 [|c1 [|c2 [|c3 [|c4 cip]]]]]; try discriminate.
  destruct hw as [|h0 [|h1 [|h2 [|h3 [|h4 [|h5 [|h6 hw]]]]]]];
    try discriminate.
  destruct pad as [|p0 [|p1 [|p2 [|p3 [|p4 [|p5 [|p6 [|p7 [|p8 [|p9 [|p pad]]]]]]]]]]];
    try discriminate.
  rewrite Message_Encode_padded.
  set (padding := repeat x00 _).
  unfold Message_unpadded, built.
  cbn [Message.OpCode Message.HardwareType Message.HardwareLength
       Message.Hops Message.TransactionID Message.SecondsElapsed
       Message.Flags Message.ClientIP Message.YourIP Message.NextServerIP
       Message.RelayAgentIP Message.ClientMAC Message.ServerHostName
       Message.BootFile Message.MagicCookie Message.Options
       ClientHardware.Encode ClientHardware.HardwareAddress
       ClientHardware.HardwareAddressPadding
       Uint32ToBytes Uint16ToBytes make repeat MagicCookie app
       flat_map OptionInter_Encode Option53.Encode Option55.Encode
       GenOption53 GenOption55 Option53.Code Option53.Length
       Option53.MessageType Option55.Code Option55.Length
       Option55.Parameters].
  rewrite Message_Decode_layout by (cbn [length]; lia).
  cbn [skipn firstn nth length].
  rewrite optionLoop_53.
  rewrite optionLoop_unrecognized
    by (unfold unrecognized; cbn; intuition discriminate).
  unfold headerAt. cbn [nth firstn skipn app].
  change [uint8 (Z.shiftr xid 24); uint8 (Z.shiftr xid 16);
          uint8 (Z.shiftr xid 8); uint8 xid] with (Uint32ToBytes xid).
  rewrite BytesToUint32_Uint32ToBytes by exact Hxid.
  rewrite (u16_bytes secs Hsecs), (u16_bytes 0) by lia.
  reflexivity.
Qed.

(** C2, as the code has it. For a message made by a builder from a MAC
    text that parses to six bytes and four-byte addresses (for a Request:
    from an offer with a 32-bit transaction ID and a 6 + 10 byte hardware
    field), decoding the encoding gives back every header field and the
    message type, and of the options the leading option 53 alone: [Decode]
    has no case for code 55, which every builder puts second, so the loop
    stops there and neither option 55 nor anything after it (61 included)
    is recovered. *)
Theorem builders_Decode_Encode
  (mac : string) (hw declineIP releaseIP : list byte)
  (options : list OptionInter) (offer : Message) :
  ParseMAC mac = Some hw -> length hw = 6 -> length releaseIP = 4 ->
  (0 <= Message.TransactionID offer < 4294967296)%Z ->
  length (ClientHardware.HardwareAddress (Message.ClientMAC offer)) = 6 ->
  length (ClientHardware.HardwareAddressPadding (Message.ClientMAC offer))
  = 10 ->
  let decoded (m : Message) :=
    Ok (Message.setOptions m
          [Opt53 (Option53.mk x35 x01 (Message.MessageType m))]) in
  Message_Decode Message_zero
    (Message_Encode (GenDiscoverMessage mac options))
  = decoded (GenDiscoverMessage mac options)
  /\ Message_Decode Message_zero
       (Message_Encode (GenDeclineMessage mac declineIP options))
     = decoded (GenDeclineMessage mac declineIP options)
  /\ Message_Decode Message_zero
       (Message_Encode (GenReleaseMessage mac releaseIP options))
     = decoded (GenReleaseMessage mac releaseIP options)
  /\ Message_Decode Message_zero
       (Message_Encode (GenRequestMessage offer options))
     = decoded (GenRequestMessage offer options).
Proof.
  intros Hmac Hhw Hip Hxid Hoa Hop. cbv zeta.
  assert (Hg : GenClientHardware mac = (ClientHardware.mk hw (make 10), false)).
  { unfold GenClientHardware. rewrite Hmac. reflexivity. }
  unfold GenDiscoverMessage, GenDeclineMessage, GenReleaseMessage,
    GenRequestMessage.
  rewrite Hg. cbn [fst Message.MessageType].
  repeat split.
  - apply (Message_Decode_built Message_zero 0 0 (make 4)
             (ClientHardware.mk hw (make 10)) MessageTypeDiscover
             (options ++ [Opt255 GenOption255]));
      solve [lia | reflexivity | assumption].
  - apply (Message_Decode_built Message_zero 0 0 (make 4)
             (ClientHardware.mk hw (make 10)) MessageTypeDecline
             (Opt50 (GenOption50 declineIP)
                :: options ++ [Opt255 GenOption255]));
      solve [lia | reflexivity | assumption].
  - apply (Message_Decode_built Message_zero 0 0 releaseIP
             (ClientHardware.mk hw (make 10)) MessageTypeRelease
             (options ++ [Opt255 GenOption255]));
      solve [lia | reflexivity | assumption].
  - apply (Message_Decode_built Message_zero
             (Message.TransactionID offer)
             (succ16 (Message.SecondsElapsed offer)) (make 4)
             (Message.ClientMAC offer) MessageTypeRequest
             (Opt50 (GenOption50 (Message.YourIP offer))
                :: options
                   ++ optionToList (Message_getOption offer x36)
                   ++ optionToList (Message_getOption offer x3d)
                   ++ [Opt255 GenOption255]));
      try solve [lia | reflexivity | assumption].
    unfold succ16. apply Z.mod_pos_bound. lia.
Qed.


(** * Further properties *)

(** ** Bytes and integers: round trips *)

Lemma testbit_mod_2p (x w n : Z) :
  (0 <= w)%Z -> (0 <= n)%Z ->
  Z.testbit (x mod 2 ^ w) n = ((n <? w)%Z && Z.testbit x n)%bool.
Proof.
  intros Hw Hn. apply Z.testbit_mod_pow2. exact Hw.
Qed.

(** X1. Integer to bytes and back: [BytesToUint32] of [Uint32ToBytes x] is
    [x] in 32 bits and [BytesToUint16] of [Uint16ToBytes x] is [x] in 16
    bits, for every integer [x]; the byte forms have 4 and 2 bytes. *)
Theorem Uint_bytes_round_trip (x : Z) :
  BytesToUint32 (Uint32ToBytes x) = (x mod 2 ^ 32)%Z
  /\ BytesToUint16 (Uint16ToBytes x) = Ok (x mod 2 ^ 16)%Z
  /\ length (Uint32ToBytes x) = 4 /\ length (Uint16ToBytes x) = 2.
Proof.
  split; [|split; [|split; reflexivity]].
  - unfold BytesToUint32, Uint32ToBytes.
    apply Z.bits_inj'. intros n Hn.
    rewrite testbit_mod_2p by lia.
    rewrite !Z.lor_spec, !testbit_octet, testbit_octet0 by lia.
    destruct (Z.leb_spec 24 n), (Z.ltb_spec n (24 + 8)),
      (Z.leb_spec 16 n), (Z.ltb_spec n (16 + 8)),
      (Z.leb_spec 8 n), (Z.ltb_spec n (8 + 8)), (Z.ltb_spec n 8),
      (Z.ltb_spec n 32);
      try lia; cbn; rewrite ?orb_false_r; reflexivity.
  - unfold BytesToUint16, Uint16ToBytes. f_equal.
    apply Z.bits_inj'. intros n Hn.
    rewrite testbit_mod_2p by lia.
    rewrite Z.lor_spec, testbit_octet, testbit_octet0 by lia.
    destruct (Z.leb_spec 8 n), (Z.ltb_spec n (8 + 8)), (Z.ltb_spec n 8),
      (Z.ltb_spec n 16);
      try lia; cbn; rewrite ?orb_false_r; reflexivity.
Qed.

Lemma testbit_ofByte_high (a : byte) (n : Z) :
  (8 <= n)%Z -> Z.testbit (ofByte a) n = false.
Proof.
  intros Hn. apply (testbit_above (ofByte a) 8 n); [|exact Hn].
  pose proof (ofByte_range a). change (2 ^ 8)%Z with 256%Z. lia.
Qed.

Lemma testbit_ofByte_shift (a : byte) (k n : Z) :
  (0 <= k)%Z -> (0 <= n)%Z ->
  Z.testbit (Z.shiftl (ofByte a) k) n
  = ((k <=? n)%Z && (n <? k + 8)%Z && Z.testbit (ofByte a) (n - k))%bool.
Proof.
  intros Hk Hn. rewrite Z.shiftl_spec by exact Hn.
  destruct (Z.leb_spec k n) as [Hle|Hlt].
  - destruct (Z.ltb_spec n (k + 8)); cbn [andb]; [reflexivity|].
    apply testbit_ofByte_high. lia.
  - apply Z.testbit_neg_r. lia.
Qed.

Lemma uint8_bits (z : Z) (a : byte) :
  (forall n, (0 <= n < 8)%Z -> Z.testbit z n = Z.testbit (ofByte a) n) ->
  uint8 z = a.
Proof.
  intros H.
  assert (Hm : (z mod 256 = ofByte a)%Z).
  { apply Z.bits_inj'. intros n Hn. change 256%Z with (2 ^ 8)%Z.
    rewrite testbit_mod_2p by lia.
    destruct (Z.ltb_spec n 8); cbn [andb].
    - apply H. lia.
    - symmetry. apply testbit_ofByte_high. lia. }
  rewrite <- (uint8_ofByte a). unfold uint8. rewrite Hm.
  rewrite (Z.mod_small (ofByte a)) by apply ofByte_range. reflexivity.
Qed.

Ltac octet :=
  apply uint8_bits; intros n Hn;
  rewrite ?Z.shiftr_spec by lia;
  rewrite ?Z.lor_spec;
  rewrite ?testbit_ofByte_shift by lia;
  repeat match goal with
    | |- context [Z.testbit (ofByte ?b) ?m] =>
        lazymatch m with
        | n => fail
        | _ =>
          first
            [ replace m with n by lia
            | rewrite (testbit_ofByte_high b m) by lia ]
        end
    | |- context [(?a <=? ?b)%Z] => destruct (Z.leb_spec a b); try lia
    | |- context [(?a <? ?b)%Z] => destruct (Z.ltb_spec a b); try lia
    end;
  cbn [andb orb]; rewrite ?orb_false_r, ?andb_false_r; try reflexivity;
  try (change (ofByte x00) with 0%Z; rewrite Z.testbit_0_l; reflexivity).

(** X2. Bytes to integer and back: four bytes go through [BytesToUint32]
    and [Uint32ToBytes] unchanged, two bytes through [BytesToUint16] and
    [Uint16ToBytes] unchanged; a single byte is read by [BytesToUint16] as
    the low octet and comes back with a zero octet before it. *)
Theorem bytes_Uint_round_trip (d0 d1 d2 d3 : byte) :
  Uint32ToBytes (BytesToUint32 [d0; d1; d2; d3]) = [d0; d1; d2; d3]
  /\ (exists v, BytesToUint16 [d0; d1] = Ok v /\ Uint16ToBytes v = [d0; d1])
  /\ (exists v, BytesToUint16 [d0] = Ok v /\ Uint16ToBytes v = [x00; d0]).
Proof.
  split; [|split].
  - unfold BytesToUint32, Uint32ToBytes.
    f_equal; [octet | f_equal; [octet | f_equal; [octet | f_equal; octet]]].
  - eexists. split; [reflexivity|]. unfold Uint16ToBytes.
    f_equal; [octet | f_equal; octet].
  - eexists. split; [reflexivity|]. unfold Uint16ToBytes.
    f_equal; [octet | f_equal; octet].
Qed.

(** ** Options: generators and decoders *)

Lemma lenOf_uint8 (z : Z) : lenOf (uint8 z) = Z.to_nat (z mod 256).
Proof.
  unfold lenOf. rewrite <- (ofByte_uint8 z). unfold ofByte.
  rewrite <- N_nat_Z, Nat2Z.id. reflexivity.
Qed.

(** X3. The length octet the generators put on the wire. [GenOption12]
    writes the name's length in 8 bits (a name of 256 bytes or more gets
    its length modulo 256, while all of its bytes are encoded);
    [GenOption50] always writes 4 and [GenOption61] always writes 7, which
    is the length of what follows only for a 4-byte address and a 6-byte
    identifier; options 51 and 57 carry 4 and 2 bytes under the lengths 4
    and 2; option 53 is three octets and option 55 lists ten codes. *)
Theorem generated_length_bytes
  (hostName : string) (address mac : list byte) (t : Z) (c : MessageType) :
  (Option12.Encode (GenOption12 hostName)
   = x0c :: Option12.Length (GenOption12 hostName)
       :: list_byte_of_string hostName
   /\ lenOf (Option12.Length (GenOption12 hostName))
      = length (list_byte_of_string hostName) mod 256)
  /\ (Option50.Encode (GenOption50 address) = x32 :: x04 :: address
      /\ (lenOf x04 = length address <-> length address = 4))
  /\ (Option61.Encode (GenOption61 mac) = x3d :: x07 :: x01 :: mac
      /\ (lenOf x07 = S (length mac) <-> length mac = 6))
  /\ (Option51.Encode (GenOption51 t) = x33 :: x04 :: Uint32ToBytes t
      /\ lenOf x04 = length (Uint32ToBytes t))
  /\ (Option57.Encode (GenOption57 t) = x39 :: x02 :: Uint16ToBytes t
      /\ lenOf x02 = length (Uint16ToBytes t))
  /\ (Option53.Encode (GenOption53 c) = [x35; x01; c])
  /\ (Option55.Encode GenOption55
      = x37 :: x0a :: bytes [1; 3; 6; 15; 46; 108; 114; 119; 121; 252]%Z).
Proof.
  repeat match goal with |- _ /\ _ => split end; try reflexivity.
  - unfold GenOption12. cbn [Option12.Length].
    rewrite lenOf_uint8.
    rewrite <- (Nat2Z.id (length (list_byte_of_string hostName) mod 256)).
    f_equal. rewrite Nat2Z.inj_mod. reflexivity.
  - change (lenOf x04) with 4. lia.
  - change (lenOf x07) with 7. lia.
Qed.

(** X4. Each option's own [Decode], given what its [Encode] wrote after
    the code octet, returns the option again for options 1, 51, 58, 59,
    108, 53 and 55. Options 12 and 50 keep only as many payload bytes as
    the length octet says, and option 54 only four. [Option57.Decode] does
    not set the code, which stays 0; [Option61.Decode], given the octets
    after the length, leaves the length 0. *)
Theorem option_Decode_after_Encode (len t : byte) (p : list byte) :
  Option1.Decode Option1.zero (tl (Option1.Encode (Option1.mk x01 len p)))
  = Ok (Option1.mk x01 len p)
  /\ Option51.Decode Option51.zero
       (tl (Option51.Encode (Option51.mk x33 len p)))
     = Ok (Option51.mk x33 len p)
  /\ Option58.Decode Option58.zero
       (tl (Option58.Encode (Option58.mk x3a len p)))
     = Ok (Option58.mk x3a len p)
  /\ Option59.Decode Option59.zero
       (tl (Option59.Encode (Option59.mk x3b len p)))
     = Ok (Option59.mk x3b len p)
  /\ Option108.Decode Option108.zero
       (tl (Option108.Encode (Option108.mk x6c len p)))
     = Ok (Option108.mk x6c len p)
  /\ Option53.Decode Option53.zero
       (tl (Option53.Encode (Option53.mk x35 len t)))
     = Ok (Option53.mk x35 len t)
  /\ Option55.Decode Option55.zero
       (tl (Option55.Encode (Option55.mk x37 len p)))
     = Ok (Option55.mk x37 len p)
  /\ Option12.Decode Option12.zero
       (tl (Option12.Encode (Option12.mk x0c len p)))
     = Ok (Option12.mk x0c len (firstn (lenOf len) p))
  /\ Option50.Decode Option50.zero
       (tl (Option50.Encode (Option50.mk x32 len p)))
     = Ok (Option50.mk x32 len (firstn (lenOf len) p))
  /\ Option54.Decode Option54.zero
       (tl (Option54.Encode (Option54.mk x36 len p)))
     = Ok (Option54.mk x36 len (firstn 4 p))
  /\ Option57.Decode Option57.zero
       (tl (Option57.Encode (Option57.mk x39 len p)))
     = Ok (Option57.mk x00 len p)
  /\ Option61.Decode Option61.zero
       (skipn 2 (Option61.Encode (Option61.mk x3d len t p)))
     = Ok (Option61.mk x3d x00 t p).
Proof.
  repeat split.
Qed.

(** ** Decode: replies *)

Lemma firstn_app_exact (a r : list byte) (n : nat) :
  length a = n -> firstn n (a ++ r) = a.
Proof.
  intros <-. rewrite firstn_app, Nat.sub_diag, firstn_all. cbn [firstn].
  apply app_nil_r.
Qed.

Lemma chunks4_concat (rs : list (list byte)) :
  forall (pre spare : list byte) (acc : list (list byte)),
    forallb (fun r => length r =? 4) rs = true ->
    chunks4 (length rs) (length pre) (pre ++ concat rs) spare acc
    = Ok (acc ++ rs).
Proof.
  induction rs as [|r rs IH]; intros pre spare acc Hall.
  - cbn [chunks4 length]. rewrite app_nil_r. reflexivity.
  - cbn [forallb] in Hall. apply andb_prop in Hall. destruct Hall as [Hr Hall].
    apply Nat.eqb_eq in Hr.
    cbn [chunks4 length concat]. unfold slice.
    replace (length pre + 4 <=? length (pre ++ r ++ concat rs) + length spare)
      with true
      by (symmetry; apply Nat.leb_le; rewrite !length_app; lia).
    cbn [bind].
    replace (length pre + 4 - length pre) with 4 by lia.
    repeat rewrite <- app_assoc.
    rewrite (skipn_app_exact pre _ (length pre) eq_refl).
    rewrite (firstn_app_exact r _ 4 Hr).
    specialize (IH (pre ++ r) spare (acc ++ [r]) Hall).
    rewrite length_app, Hr in IH. repeat rewrite <- app_assoc in IH.
    rewrite IH. reflexivity.
Qed.

Lemma iterations4_4 (len : byte) (n : nat) :
  lenOf len = 4 * n -> iterations4 len = n.
Proof.
  intros H. unfold iterations4. rewrite H.
  replace (4 * n + 3) with (3 + n * 4) by lia.
  rewrite Nat.div_add by lia. reflexivity.
Qed.

Lemma length_concat4 (rs : list (list byte)) :
  forallb (fun r => length r =? 4) rs = true ->
  length (concat rs) = 4 * length rs.
Proof.
  induction rs as [|r rs IH]; intros H; [reflexivity|].
  cbn [forallb] in H. apply andb_prop in H. destruct H as [Hr H].
  apply Nat.eqb_eq in Hr.
  cbn [concat length]. rewrite length_app, Hr, (IH H). lia.
Qed.

Ltac four p :=
  destruct p as [|? [|? [|? [|? [|? ?]]]]]; try discriminate.

Lemma optionLoop_replyOption
  (o : OptionInter) (fuel : nat) (spare : list byte) (code : byte)
  (body tail : list byte) (acc : list OptionInter) (m : Message) :
  replyOption o = true ->
  OptionInter_Encode o = code :: body ->
  optionLoop (S fuel) spare code (body ++ tail) acc m
  = match tail with
    | [] => Panic
    | c' :: buf' =>
        optionLoop fuel spare c' buf' (acc ++ [o]) (afterOption m o)
    end.
Proof.
  intros Hwf Henc.
  destruct o as [o|o|o|o|o|o|o|o|o|o|o|o|o|o|o|o];
    try discriminate Hwf; destruct o; cbn in Hwf, Henc;
    repeat match goal with
      | H : (_ && _)%bool = true |- _ => apply andb_prop in H; destruct H
      | H : Byte.eqb _ _ = true |- _ => apply Byte.byte_dec_bl in H
      | H : (_ =? _) = true |- _ => apply Nat.eqb_eq in H
      end;
    subst; injection Henc as <- <-.
  - (* 1 *) four SubnetMask. reflexivity.
  - (* 3 *)
    assert (Hn : lenOf Length = 4 * length Routers) by lia.
    assert (Hl : length (concat Routers) = lenOf Length)
      by (rewrite length_concat4 by assumption; lia).
    cbn [optionLoop Byte.to_N Byte.to_bits]. cbv beta iota zeta.
    cbn [app Next fst snd firstn skipn index0 bind].
    unfold Option3.Decode. cbn [Option3.Routers Option3.Length].
    rewrite (iterations4_4 _ _ Hn).
    rewrite (firstn_app_exact (concat Routers) _ _ Hl).
    rewrite (skipn_app_exact (concat Routers) _ _ Hl).
    pose proof (chunks4_concat Routers [] (tail ++ spare) []) as Hc.
    cbn [length] in Hc. rewrite app_nil_l in Hc. rewrite Hc by assumption.
    reflexivity.
  - (* 6 *)
    assert (Hn : lenOf Length = 4 * length DomainNameServers) by lia.
    assert (Hl : length (concat DomainNameServers) = lenOf Length)
      by (rewrite length_concat4 by assumption; lia).
    cbn [optionLoop Byte.to_N Byte.to_bits]. cbv beta iota zeta.
    cbn [app Next fst snd firstn skipn index0 bind].
    unfold Option6.Decode. cbn [Option6.DomainNameServers Option6.Length].
    rewrite (iterations4_4 _ _ Hn).
    rewrite (firstn_app_exact (concat DomainNameServers) _ _ Hl).
    rewrite (skipn_app_exact (concat DomainNameServers) _ _ Hl).
    pose proof (chunks4_concat DomainNameServers [] (tail ++ spare) []) as Hc.
    cbn [length] in Hc. rewrite app_nil_l in Hc. rewrite Hc by assumption.
    reflexivity.
  - (* 51 *) four LeaseTime. reflexivity.
  - (* 53 *) reflexivity.
  - (* 54 *) four ServerIdentifier. reflexivity.
  - (* 58 *) four RenewalTime. reflexivity.
  - (* 59 *) four RebindingTime. reflexivity.
  - (* 61 *)
    assert (Hl : length (HardwareType :: ClientIdentifier) = lenOf Length)
      by (cbn [length]; lia).
    cbn [optionLoop Byte.to_N Byte.to_bits]. cbv beta iota zeta.
    cbn [app Next fst snd firstn skipn index0 bind].
    change (HardwareType :: ClientIdentifier ++ tail)
      with ((HardwareType :: ClientIdentifier) ++ tail).
    rewrite (firstn_app_exact (HardwareType :: ClientIdentifier) _ _ Hl).
    rewrite (skipn_app_exact (HardwareType :: ClientIdentifier) _ _ Hl).
    reflexivity.
  - (* 108 *) four Value. reflexivity.
  - (* 255 *) reflexivity.
Qed.

Lemma replyOption_Encode (o : OptionInter) :
  replyOption o = true ->
  exists code body, OptionInter_Encode o = code :: body.
Proof.
  intros H. destruct o; try discriminate H; destruct o; cbn;
    eexists; eexists; reflexivity.
Qed.

Lemma lastMessageType_cons (o : OptionInter) (opts : list OptionInter)
  (m : Message) :
  Message.setMessageType (afterOption m o)
    (lastMessageType opts (Message.MessageType (afterOption m o)))
  = Message.setMessageType m
      (lastMessageType (o :: opts) (Message.MessageType m)).
Proof.
  destruct o; reflexivity.
Qed.

(** The loop over a run of reply options that an octet without a case
    follows: it returns them all. *)
Lemma optionLoop_replyOptions (opts : list OptionInter) :
  forall (fuel : nat) (spare : list byte) (acc : list OptionInter)
         (m : Message) (code stop : byte) (body rest : list byte),
    forallb replyOption opts = true ->
    unrecognized stop ->
    flat_map OptionInter_Encode opts ++ stop :: rest = code :: body ->
    length body < fuel ->
    optionLoop fuel spare code body acc m
    = Ok (Message.setOptions
            (Message.setMessageType m
               (lastMessageType opts (Message.MessageType m)))
            (acc ++ opts)).
Proof.
  induction opts as [|o opts IH];
    intros fuel spare acc m code stop body rest Hall Hstop Henc Hfuel.
  - cbn [flat_map app] in Henc. injection Henc as <- <-.
    destruct fuel as [|fuel]; [lia|].
    rewrite (optionLoop_unrecognized fuel spare stop rest acc m Hstop).
    rewrite app_nil_r. reflexivity.
  - cbn [forallb] in Hall. apply andb_prop in Hall. destruct Hall as [Ho Hall].
    destruct (replyOption_Encode o Ho) as (c0 & body0 & He).
    cbn [flat_map] in Henc. rewrite He in Henc.
    rewrite <- app_assoc in Henc. cbn [app] in Henc.
    injection Henc as <- <-.
    destruct fuel as [|fuel]; [lia|].
    rewrite (optionLoop_replyOption o fuel spare c0 body0 _ acc m Ho He).
    destruct (flat_map OptionInter_Encode opts ++ stop :: rest)
      as [|c' buf'] eqn:Et.
    + apply app_eq_nil in Et. destruct Et as [_ Et]. discriminate Et.
    + rewrite length_app in Hfuel. cbn [length] in Hfuel.
      rewrite (IH fuel spare (acc ++ [o]) (afterOption m o) c' stop buf' rest
                 Hall Hstop Et ltac:(lia)).
      rewrite lastMessageType_cons, <- app_assoc. reflexivity.
Qed.

(** The loop over a run of reply options that ends the buffer: it
    panics on the read of the next code byte. *)
Lemma optionLoop_replyOptions_end (opts : list OptionInter) :
  forall (fuel : nat) (spare : list byte) (acc : list OptionInter)
         (m : Message) (code : byte) (body : list byte),
    forallb replyOption opts = true ->
    flat_map OptionInter_Encode opts = code :: body ->
    length body < fuel ->
    optionLoop fuel spare code body acc m = Panic.
Proof.
  induction opts as [|o opts IH];
    intros fuel spare acc m code body Hall Henc Hfuel.
  - discriminate Henc.
  - cbn [forallb] in Hall. apply andb_prop in Hall. destruct Hall as [Ho Hall].
    destruct (replyOption_Encode o Ho) as (c0 & body0 & He).
    cbn [flat_map] in Henc. rewrite He in Henc. cbn [app] in Henc.
    injection Henc as <- <-.
    destruct fuel as [|fuel]; [lia|].
    rewrite (optionLoop_replyOption o fuel spare c0 body0 _ acc m Ho He).
    destruct (flat_map OptionInter_Encode opts) as [|c' buf'] eqn:Et.
    + reflexivity.
    + rewrite length_app in Hfuel. cbn [length] in Hfuel.
      apply (IH fuel spare (acc ++ [o]) (afterOption m o) c' buf' Hall
               eq_refl).
      lia.
Qed.

(** X5. What [Decode] makes of a reply: a datagram of 240 header bytes, the
    encodings of well-formed reply options (codes 1, 3, 6, 51, 53, 54, 58,
    59, 61, 108, 255, with payloads of the sizes [Decode] reads) and then
    an octet [Decode] has no case for, decodes to the header fields read
    by offset and exactly these options, in order; the message type is
    that of the last option 53, or the prior one without any. Whatever
    follows the stopping octet is not looked at. *)
Theorem Message_Decode_reply
  (m : Message) (h : list byte) (opts : list OptionInter) (stop : byte)
  (rest : list byte) :
  length h = 240 ->
  forallb replyOption opts = true ->
  unrecognized stop ->
  Message_Decode m (h ++ flat_map OptionInter_Encode opts ++ stop :: rest)
  = Ok (Message.setOptions
          (Message.setMessageType (headerAt m h)
             (lastMessageType opts (Message.MessageType m)))
          opts).
Proof.
  intros Hh Hall Hstop.
  destruct (flat_map OptionInter_Encode opts ++ stop :: rest)
    as [|code body] eqn:Et.
  { apply app_eq_nil in Et. destruct Et as [_ Et]. discriminate Et. }
  rewrite (Message_Decode_header m h body code Hh).
  apply (optionLoop_replyOptions opts _ _ [] (headerAt m h) code stop body
           rest Hall Hstop Et).
  lia.
Qed.

(** X6. A datagram whose option area is made of well-formed reply options
    only and ends with the last of them, without an octet that stops the
    loop after it, makes [Decode] panic: the loop reads the next code from
    the empty buffer. This holds also when the last option is End. *)
Theorem Message_Decode_reply_unterminated
  (m : Message) (h : list byte) (o : OptionInter) (opts : list OptionInter) :
  length h = 240 ->
  forallb replyOption (o :: opts) = true ->
  Message_Decode m (h ++ flat_map OptionInter_Encode (o :: opts)) = Panic.
Proof.
  intros Hh Hall.
  destruct (flat_map OptionInter_Encode (o :: opts)) as [|code body] eqn:Et.
  { cbn [forallb] in Hall. apply andb_prop in Hall. destruct Hall as [Ho _].
    destruct (replyOption_Encode o Ho) as (c0 & body0 & He).
    cbn [flat_map] in Et. rewrite He in Et. discriminate Et. }
  rewrite (Message_Decode_header m h body code Hh).
  apply (optionLoop_replyOptions_end (o :: opts) _ _ [] (headerAt m h) code
           body Hall Et).
  lia.
Qed.

Lemma Message_unpadded_split (m : Message) :
  Message_unpadded m
  = Message_unpadded (Message.setOptions m [])
      ++ flat_map OptionInter_Encode (Message.Options m).
Proof.
  unfold Message_unpadded. cbn [Message.setOptions Message.OpCode
    Message.HardwareType Message.HardwareLength Message.Hops
    Message.TransactionID Message.SecondsElapsed Message.Flags
    Message.ClientIP Message.YourIP Message.NextServerIP Message.RelayAgentIP
    Message.ClientMAC Message.ServerHostName Message.BootFile
    Message.MagicCookie Message.Options flat_map].
  rewrite app_nil_r. repeat rewrite <- app_assoc. reflexivity.
Qed.

Lemma headerAt_unpadded (m0 m : Message) :
  wellSized m ->
  length (Message_unpadded (Message.setOptions m [])) = 240
  /\ headerAt m0 (Message_unpadded (Message.setOptions m []))
     = Message.setMessageType (Message.setOptions m (Message.Options m0))
         (Message.MessageType m0).
Proof.
  unfold wellSized. destruct m as [op ht hl hops xid secs flags cip yip sip
    gip [hw pad] sname file cookie opts mt].
  cbn [Message.TransactionID Message.SecondsElapsed Message.Flags
       Message.ClientIP Message.YourIP Message.NextServerIP
       Message.RelayAgentIP Message.ClientMAC Message.ServerHostName
       Message.BootFile Message.MagicCookie
       ClientHardware.HardwareAddress ClientHardware.HardwareAddressPadding].
  intros (Hxid & Hsecs & Hflags & Hc & Hy & Hs & Hg & Hhw & Hpad & Hsn & Hbf
          & Hck).
  unfold Message_unpadded.
  cbn [Message.setOptions Message.OpCode
    Message.HardwareType Message.HardwareLength Message.Hops
    Message.TransactionID Message.SecondsElapsed Message.Flags
    Message.ClientIP Message.YourIP Message.NextServerIP Message.RelayAgentIP
    Message.ClientMAC Message.ServerHostName Message.BootFile
    Message.MagicCookie Message.Options flat_map
    ClientHardware.Encode ClientHardware.HardwareAddress
    ClientHardware.HardwareAddressPadding].
  rewrite app_nil_r.
  change (ClientHardware.Encode (ClientHardware.mk hw pad)) with (hw ++ pad).
  set (pre := [op; ht; hl; hops] ++ Uint32ToBytes xid ++ Uint16ToBytes secs
                ++ Uint16ToBytes flags ++ cip ++ yip ++ sip ++ gip
                ++ hw ++ pad).
  assert (Hsplit :
    [op; ht; hl; hops] ++ Uint32ToBytes xid ++ Uint16ToBytes secs
      ++ Uint16ToBytes flags ++ cip ++ yip ++ sip ++ gip
      ++ (hw ++ pad) ++ sname ++ file ++ cookie
    = pre ++ sname ++ file ++ cookie).
  { subst pre. repeat rewrite <- app_assoc. reflexivity. }
  rewrite Hsplit. clear Hsplit.
  assert (Hpre : length pre = 44).
  { subst pre. rewrite !length_app. cbn [length Uint32ToBytes Uint16ToBytes].
    lia. }
  split.
  { rewrite !length_app. lia. }
  unfold headerAt.
  change 236 with (128 + (64 + 44)). change 108 with (64 + 44).
  rewrite <- !skipn_skipn.
  rewrite (skipn_app_exact pre _ 44 Hpre).
  rewrite (skipn_app_exact sname _ 64 Hsn).
  rewrite (skipn_app_exact file _ 128 Hbf).
  rewrite (firstn_app_exact sname _ 64 Hsn).
  rewrite (firstn_app_exact file _ 128 Hbf).
  rewrite (firstn_all2 cookie) by lia.
  rewrite !(firstn_skipn_app pre) by lia.
  rewrite !(app_nth1 pre) by lia.
  subst pre.
  destruct cip as [|c0 [|c1 [|c2 [|c3 [|? ?]]]]]; try discriminate.
  destruct yip as [|y0 [|y1 [|y2 [|y3 [|? ?]]]]]; try discriminate.
  destruct sip as [|s0 [|s1 [|s2 [|s3 [|? ?]]]]]; try discriminate.
  destruct gip as [|g0 [|g1 [|g2 [|g3 [|? ?]]]]]; try discriminate.
  destruct hw as [|h0 [|h1 [|h2 [|h3 [|h4 [|h5 [|? ?]]]]]]];
    try discriminate.
  destruct pad as [|p0 [|p1 [|p2 [|p3 [|p4 [|p5 [|p6 [|p7 [|p8 [|p9 [|? ?]]]]]]]]]]];
    try discriminate.
  cbn [app Uint32ToBytes Uint16ToBytes nth firstn skipn].
  change [uint8 (Z.shiftr xid 24); uint8 (Z.shiftr xid 16);
          uint8 (Z.shiftr xid 8); uint8 xid] with (Uint32ToBytes xid).
  rewrite BytesToUint32_Uint32ToBytes by exact Hxid.
  rewrite (u16_bytes secs Hsecs), (u16_bytes flags Hflags).
  reflexivity.
Qed.

(** X7. [Decode] after [Encode], for messages that carry reply options
    only and whose fixed fields have the sizes of the wire format. When
    the fields and options take fewer than 300 bytes, the zero padding
    stops the loop and the message comes back whole, its type field set
    from its last option 53 (or from the receiving message, without one).
    When they take 300 bytes or more there is no padding and [Decode]
    panics. *)
Theorem Message_Decode_Encode_reply (m0 m : Message) :
  wellSized m ->
  forallb replyOption (Message.Options m) = true ->
  Message_Decode m0 (Message_Encode m)
  = if length (Message_unpadded m) <? MinRequestLength
    then Ok (Message.setMessageType m
               (lastMessageType (Message.Options m) (Message.MessageType m0)))
    else Panic.
Proof.
  intros Hm Hall.
  destruct (headerAt_unpadded m0 m Hm) as [Hh Hat].
  rewrite Message_Encode_padded.
  destruct (Nat.ltb_spec (length (Message_unpadded m)) MinRequestLength)
    as [Hlt|Hge].
  - destruct (MinRequestLength - length (Message_unpadded m)) as [|k] eqn:Ek;
      [lia|].
    cbn [repeat]. rewrite Message_unpadded_split, <- app_assoc.
    destruct (flat_map OptionInter_Encode (Message.Options m)
                ++ x00 :: repeat x00 k) as [|code body] eqn:Et.
    { apply app_eq_nil in Et. destruct Et as [_ Et]. discriminate Et. }
    rewrite (Message_Decode_header m0 _ body code Hh).
    rewrite (optionLoop_replyOptions (Message.Options m) _ _ []
               (headerAt m0 (Message_unpadded (Message.setOptions m [])))
               code x00 body (repeat x00 k) Hall).
    + rewrite Hat. destruct m. reflexivity.
    + unfold unrecognized. cbn. intuition discriminate.
    + exact Et.
    + lia.
  - replace (MinRequestLength - length (Message_unpadded m)) with 0 by lia.
    cbn [repeat]. rewrite app_nil_r.
    rewrite Message_unpadded_split in Hge |- *.
    rewrite length_app, Hh in Hge. unfold MinRequestLength in Hge.
    destruct (flat_map OptionInter_Encode (Message.Options m))
      as [|code body] eqn:Et.
    { cbn [length] in Hge. lia. }
    rewrite (Message_Decode_header m0 _ body code Hh).
    apply (optionLoop_replyOptions_end (Message.Options m) _ _ [] _ code body
             Hall Et).
    lia.
Qed.

(** X8. The size of the Discover datagram: with a 6-byte hardware address,
    a 6-byte client identifier and a 4-byte relay address the fields and
    options of [Discovery] take 275 bytes, and 277 plus the name's length
    with a host name; the datagram is 300 bytes unless the name brings it
    beyond. *)
Theorem Conn_Discovery_length (c : Conn.t) (hw : list byte) :
  ParseMAC (Conn.Mac c) = Some hw -> length hw = 6 ->
  length (Conn.MacByte c) = 6 -> length (Conn.relay c) = 4 ->
  length (Message_Encode (message (Conn_Discovery c)))
  = if String.eqb (Conn.HostName c) EmptyString then 300
    else Nat.max 300
           (277 + length (list_byte_of_string (Conn.HostName c))).
Proof.
  intros Hmac Hhw Hmb Hr.
  rewrite Message_Encode_padded, length_app, repeat_length.
  assert (Hu : length (Message_unpadded (message (Conn_Discovery c)))
               = 275 + if String.eqb (Conn.HostName c) EmptyString then 0
                       else 2 + length (list_byte_of_string (Conn.HostName c))).
  { unfold Conn_Discovery, Message_unpadded, GenDiscoverMessage,
      GenClientHardware, withHostName.
    rewrite Hmac.
    cbn [message fst Message.setRelayAgentIP Message.setSecondsElapsed
         Message.setTransactionID Conn.setCurrentMessageType Conn.relay
         Conn.HostName Conn.MacByte
         Message.OpCode Message.HardwareType Message.HardwareLength
         Message.Hops Message.TransactionID Message.SecondsElapsed
         Message.Flags Message.ClientIP Message.YourIP Message.NextServerIP
         Message.RelayAgentIP Message.ClientMAC Message.ServerHostName
         Message.BootFile Message.MagicCookie Message.Options
         ClientHardware.Encode ClientHardware.HardwareAddress
         ClientHardware.HardwareAddressPadding].
    destruct (String.eqb (Conn.HostName c) EmptyString);
      rewrite !length_app, !flat_map_app, !length_app;
      cbn [flat_map OptionInter_Encode app length Uint32ToBytes Uint16ToBytes
           Option53.Encode Option55.Encode Option51.Encode Option57.Encode
           Option61.Encode Option12.Encode Option255.Encode
           GenOption53 GenOption55 GenOption51 GenOption57 GenOption61
           GenOption12 GenOption255 bytes map
           Option53.Code Option53.Length Option53.MessageType
           Option55.Code Option55.Length Option55.Parameters
           Option51.Code Option51.Length Option51.LeaseTime
           Option57.Code Option57.Length Option57.MaximumMessageSize
           Option61.Code Option61.Length Option61.HardwareType
           Option61.ClientIdentifier Option12.Code Option12.Length
           Option12.HostName Option255.Code MagicCookie];
      rewrite ?length_app; unfold make; rewrite ?repeat_length;
      cbn [length];
      change (ClientHardware.Encode (ClientHardware.mk hw (repeat x00 10)))
        with (hw ++ repeat x00 10);
      rewrite ?length_app, ?repeat_length, Hhw, Hr, Hmb; lia. }
  rewrite Hu. unfold MinRequestLength.
  destruct (String.eqb (Conn.HostName c) EmptyString); lia.
Qed.

(** ** The session: handler, receive loop, constructor *)


(** The five ways a call of [handlerResponse] returns. *)
Lemma handlerResponse_cases
  (c : Conn.t) (addr : string) (b : list byte) (r : handled Message) :
  Conn_handlerResponse c addr b = Ok r ->
  exists m,
    Message_Decode Message_zero b = Ok m
    /\ ((Message.TransactionID m <> Conn.TransactionID c
         /\ r = {| session := c; sent := []; done := false |})
        \/ (Message.TransactionID m = Conn.TransactionID c
            /\ Message.MessageType m = MessageTypeNak
            /\ Conn.CurrentMessageType c = MessageTypeDiscover
            /\ (succInt (Conn.retry c) < MaxRetryNum)%Z
            /\ r = {| session :=
                        after (Conn_Discovery
                                 (Conn.setRetry c (succInt (Conn.retry c))));
                      sent :=
                        [message (Conn_Discovery
                                    (Conn.setRetry c (succInt (Conn.retry c))))];
                      done := false |})
        \/ (Message.TransactionID m = Conn.TransactionID c
            /\ Message.MessageType m = MessageTypeNak
            /\ r = {| session := Conn.setRetry c (succInt (Conn.retry c));
                      sent := [];
                      done := String.eqb addr (Conn.DhcpServerHost c) |})
        \/ (Message.TransactionID m = Conn.TransactionID c
            /\ Message.MessageType m = MessageTypeOffer
            /\ Conn.CurrentMessageType c = MessageTypeDiscover
            /\ r = {| session := after (Conn_Request (Conn.setRetry c 0) m);
                      sent := [message (Conn_Request (Conn.setRetry c 0) m)];
                      done := false |})
        \/ (Message.TransactionID m = Conn.TransactionID c
            /\ Message.MessageType m <> MessageTypeNak
            /\ r = {| session := Conn.setRetry c 0;
                      sent := [];
                      done :=
                        Byte.eqb (Conn.CurrentMessageType c) MessageTypeRequest
                        && Byte.eqb (Message.MessageType m) MessageTypeAck |})).
Proof.
  unfold Conn_handlerResponse.
  destruct (Message_Decode Message_zero b) as [m| |] eqn:Hm; cbn [bind];
    try discriminate.
  intros H. exists m. split; [reflexivity|].
  destruct (Z.eqb_spec (Message.TransactionID m) (Conn.TransactionID c))
    as [Hx|Hx]; cbn [negb] in H.
  2:{ left. injection H as <-. split; [exact Hx|reflexivity]. }
  right.
  destruct (Byte.eqb (Message.MessageType m) MessageTypeNak) eqn:En.
  - apply Byte.byte_dec_bl in En.
    cbn [Conn.CurrentMessageType Conn.setRetry Conn.retry
         Conn.DhcpServerHost] in H.
    destruct (Byte.eqb (Conn.CurrentMessageType c) MessageTypeDiscover) eqn:Ed;
      cbn [andb] in H.
    + destruct (Z.ltb_spec (succInt (Conn.retry c)) MaxRetryNum) as [Hl|Hl].
      * left. apply Byte.byte_dec_bl in Ed. injection H as <-.
        repeat split; assumption.
      * right. left.
        destruct (String.eqb addr (Conn.DhcpServerHost c));
          cbn [negb] in H; injection H as <-; repeat split; assumption.
    + right. left.
      destruct (String.eqb addr (Conn.DhcpServerHost c));
        cbn [negb] in H; injection H as <-; repeat split; assumption.
  - right. right.
    assert (Hn : Message.MessageType m <> MessageTypeNak).
    { intros E. rewrite E in En. discriminate En. }
    cbn [Conn.CurrentMessageType Conn.setRetry] in H.
    destruct (Byte.eqb (Conn.CurrentMessageType c) MessageTypeDiscover) eqn:Ed;
      destruct (Byte.eqb (Message.MessageType m) MessageTypeOffer) eqn:Eo;
      cbn [andb] in H.
    + left. apply Byte.byte_dec_bl in Ed, Eo.
      destruct (failed (Conn_Request (Conn.setRetry c 0) m)).
      * injection H as <-. repeat split; assumption.
      * injection H as <-. rewrite Eo. 
        repeat split; try assumption.
    + right. injection H as <-. repeat split; assumption.
    + right. injection H as <-. repeat split; assumption.
    + right. injection H as <-. repeat split; assumption.
Qed.

(** X10. An Offer of the session's transaction, received while the session
    waits for it (current type Discover): exactly one Request is sent; the
    session moves to Request, takes the offer's elapsed seconds plus one
    (in 16 bits), has its retry counter at 0 and is not signalled as done.
    The Request has the session's transaction and relay address, the
    offer's hardware field, options 53 = Request, 55 and 50 = the offered
    address first, and the offer's server identifier when it has one. *)
Theorem handlerResponse_Offer
  (c : Conn.t) (addr : string) (b : list byte) (m : Message) :
  Message_Decode Message_zero b = Ok m ->
  Message.TransactionID m = Conn.TransactionID c ->
  Conn.CurrentMessageType c = MessageTypeDiscover ->
  Message.MessageType m = MessageTypeOffer ->
  exists request,
    Conn_handlerResponse c addr b
    = Ok {| session :=
              Conn.mk (Conn.TransactionID c)
                (succ16 (Message.SecondsElapsed m)) (Conn.DhcpServerHost c)
                MessageTypeRequest (Conn.HostName c) (Conn.Mac c)
                (Conn.MacByte c) 0%Z (Conn.relay c);
            sent := [request];
            done := false |}
    /\ Message.TransactionID request = Conn.TransactionID c
    /\ Message.SecondsElapsed request = succ16 (Message.SecondsElapsed m)
    /\ Message.ClientMAC request = Message.ClientMAC m
    /\ Message.RelayAgentIP request = Conn.relay c
    /\ Message.MessageType request = MessageTypeRequest
    /\ firstn 3 (Message.Options request)
       = [Opt53 (Option53.mk x35 x01 MessageTypeRequest);
          Opt55 GenOption55;
          Opt50 (Option50.mk x32 x04 (Message.YourIP m))]
    /\ (forall o, getOption (Message.Options m) x36 = Some o ->
                  In o (Message.Options request)).
Proof.
  intros Hm Hx Hd Ho.
  exists (message (Conn_Request (Conn.setRetry c 0) m)).
  split.
  - unfold Conn_handlerResponse. rewrite Hm. cbn [bind].
    rewrite Hx, Z.eqb_refl, Ho. cbn [negb].
    change (Byte.eqb MessageTypeOffer MessageTypeNak) with false. cbv iota.
    cbn [Conn.CurrentMessageType Conn.setRetry]. rewrite Hd.
    change (Byte.eqb MessageTypeDiscover MessageTypeDiscover) with true.
    change (Byte.eqb MessageTypeOffer MessageTypeOffer) with true.
    cbn [andb].
    destruct (failed (Conn_Request (Conn.setRetry c 0) m)); reflexivity.
  - repeat split; try reflexivity; try (symmetry; exact Hx); try exact Hx.
    intros o Hsome. unfold Conn_Request.
    cbn [message Message.setRelayAgentIP Message.Options GenRequestMessage].
    unfold Message_getOption. rewrite Hsome.
    cbn [optionToList app]. right. right. right.
    apply in_or_app. right. left. reflexivity.
Qed.

(** X11. [handlerResponse] signals completion in two cases only, both of
    the session's transaction: a NAK whose source text equals the
    session's server host, or an Ack while the session's current type is
    Request. Nothing is sent in either case. *)
Theorem handlerResponse_done
  (c : Conn.t) (addr : string) (b : list byte) (r : handled Message) :
  Conn_handlerResponse c addr b = Ok r ->
  done r = true ->
  sent r = []
  /\ Message.TransactionID (decoded b) = Conn.TransactionID c
  /\ ((Message.MessageType (decoded b) = MessageTypeNak
       /\ addr = Conn.DhcpServerHost c)
      \/ (Message.MessageType (decoded b) = MessageTypeAck
          /\ Conn.CurrentMessageType c = MessageTypeRequest)).
Proof.
  intros H Hd. destruct (handlerResponse_cases c addr b r H) as (m & Hm & Hc).
  unfold decoded. rewrite Hm.
  destruct Hc as [(_ & ->)|[(_ & _ & _ & _ & ->)|[(Hx & Hn & ->)|
                 [(_ & _ & _ & ->)|(Hx & _ & ->)]]]];
    cbn [done] in Hd; try discriminate Hd; cbn [sent].
  - split; [reflexivity|]. split; [exact Hx|]. left.
    split; [exact Hn|]. apply String.eqb_eq. exact Hd.
  - split; [reflexivity|]. split; [exact Hx|]. right.
    apply andb_prop in Hd. destruct Hd as [Hr Ha].
    apply Byte.byte_dec_bl in Hr, Ha. split; assumption.
Qed.

(** X12. What [handlerResponse] never changes: the transaction ID, the
    server host, the host name, the MAC text and bytes and the relay
    address of the session. The current type changes only from Discover to
    Request. *)
Theorem handlerResponse_keeps
  (c : Conn.t) (addr : string) (b : list byte) (r : handled Message) :
  Conn_handlerResponse c addr b = Ok r ->
  Conn.TransactionID (session r) = Conn.TransactionID c
  /\ Conn.DhcpServerHost (session r) = Conn.DhcpServerHost c
  /\ Conn.HostName (session r) = Conn.HostName c
  /\ Conn.Mac (session r) = Conn.Mac c
  /\ Conn.MacByte (session r) = Conn.MacByte c
  /\ Conn.relay (session r) = Conn.relay c
  /\ (Conn.CurrentMessageType (session r) = Conn.CurrentMessageType c
      \/ (Conn.CurrentMessageType c = MessageTypeDiscover
          /\ Conn.CurrentMessageType (session r) = MessageTypeRequest)).
Proof.
  intros H. destruct (handlerResponse_cases c addr b r H) as (m & Hm & Hc).
  destruct Hc as [(_ & ->)|[(_ & _ & Hd & _ & ->)|[(_ & _ & ->)|
                 [(_ & _ & Hd & ->)|(_ & _ & ->)]]]];
    cbn [session]; repeat split;
    try (left; first [reflexivity | symmetry; exact Hd]).
  right. split; [exact Hd | reflexivity].
Qed.

(** X13. [handlerResponse] sends at most one message per datagram, and what
    it sends is a client request (op 1) of the session's transaction with
    the session's relay address and the magic cookie, of type Discover or
    Request, in a datagram of at least 300 bytes. *)
Theorem handlerResponse_sent
  (c : Conn.t) (addr : string) (b : list byte) (r : handled Message) :
  Conn_handlerResponse c addr b = Ok r ->
  length (sent r) <= 1
  /\ Forall
       (fun s =>
          Message.TransactionID s = Conn.TransactionID c
          /\ Message.RelayAgentIP s = Conn.relay c
          /\ Message.OpCode s = x01
          /\ Message.MagicCookie s = MagicCookie
          /\ (Message.MessageType s = MessageTypeDiscover
              \/ Message.MessageType s = MessageTypeRequest)
          /\ 300 <= length (Message_Encode s))
       (sent r).
Proof.
  intros H. destruct (handlerResponse_cases c addr b r H) as (m & Hm & Hc).
  assert (Hlen : forall s, 300 <= length (Message_Encode s)).
  { intros s. rewrite Message_Encode_padded, length_app, repeat_length.
    unfold MinRequestLength. lia. }
  destruct Hc as [(_ & ->)|[(_ & _ & _ & _ & ->)|[(_ & _ & ->)|
                 [(Hx & _ & _ & ->)|(_ & _ & ->)]]]];
    cbn [sent length]; (split; [lia|]); try apply Forall_nil.
  - apply Forall_cons; [|apply Forall_nil].
    split; [reflexivity|]. split; [reflexivity|]. split; [reflexivity|].
    split; [reflexivity|]. split; [left; reflexivity|]. apply Hlen.
  - apply Forall_cons; [|apply Forall_nil].
    split; [exact Hx|]. split; [reflexivity|]. split; [reflexivity|].
    split; [reflexivity|]. split; [right; reflexivity|]. apply Hlen.
Qed.

(** The receive loop *)

Lemma listenLoop_read_errors (c : Conn.t) (out : list Message)
  (errors : list read) (reads : list read) :
  Forall (fun rd => rd = ReadError false) errors ->
  listenLoop c out (errors ++ reads) = listenLoop c out reads.
Proof.
  induction 1 as [|rd errors Hrd _ IH]; [reflexivity|].
  subst rd. cbn [app listenLoop]. exact IH.
Qed.

(** X14. The receive loop of [listenUDP] skips read errors that are neither
    a timeout nor temporary, with the session and the messages sent so far
    unchanged; the first timeout (or temporary error) after them signals
    completion and ends the loop, whatever would be read next. Without it
    the loop goes on waiting. *)
Theorem listenLoop_timeout (c : Conn.t) (out : list Message)
  (errors : list read) (reads : list read) :
  Forall (fun rd => rd = ReadError false) errors ->
  listenLoop c out (errors ++ ReadError true :: reads)
  = Ok {| final := c; sentAll := out; ended := Signalled |}
  /\ listenLoop c out errors
     = Ok {| final := c; sentAll := out; ended := Waiting |}.
Proof.
  intros He. split.
  - rewrite (listenLoop_read_errors c out errors _ He). reflexivity.
  - rewrite <- (app_nil_r errors) at 1.
    rewrite (listenLoop_read_errors c out errors _ He). reflexivity.
Qed.

(** X15. The whole exchange: after [Discovery], a listener that can bind
    its port and reads an Offer and then an Ack of the session's
    transaction sends one Request (the one built from the offer, with the
    session's relay address), ends signalled with the session in Request
    and the retry counter at 0, and reads nothing after the Ack. *)
Theorem listenUDP_exchange
  (c : Conn.t) (binds : Z -> bool) (a1 a2 : string) (b1 b2 : list byte)
  (offer ack : Message) (reads : list read) :
  length (Conn.relay c) = 4 ->
  (forall port, binds port = true) ->
  length b1 <= 576 -> length b2 <= 576 ->
  Message_Decode Message_zero b1 = Ok offer ->
  Message_Decode Message_zero b2 = Ok ack ->
  Message.TransactionID offer = Conn.TransactionID c ->
  Message.TransactionID ack = Conn.TransactionID c ->
  Message.MessageType offer = MessageTypeOffer ->
  Message.MessageType ack = MessageTypeAck ->
  Conn_listenUDP (after (Conn_Discovery c)) binds
    (Datagram a1 b1 :: Datagram a2 b2 :: reads)
  = Ok {| final :=
            Conn.mk (Conn.TransactionID c)
              (succ16 (Message.SecondsElapsed offer)) (Conn.DhcpServerHost c)
              MessageTypeRequest (Conn.HostName c) (Conn.Mac c)
              (Conn.MacByte c) 0%Z (Conn.relay c);
          sentAll :=
            [Message.setRelayAgentIP
               (GenRequestMessage offer
                  (withHostName c
                     [Opt57 (GenOption57 1500); Opt51 (GenOption51 7776000)]))
               (Conn.relay c)];
          ended := Signalled |}.
Proof.
  intros Hr Hb Hl1 Hl2 Ho Ha Hxo Hxa Hto Hta.
  unfold Conn_listenUDP.
  assert (Hport : exists port, Conn_listenPort (after (Conn_Discovery c))
                               = Ok port).
  { unfold Conn_listenPort, Conn_isRelay.
    change (Conn.relay (after (Conn_Discovery c))) with (Conn.relay c).
    destruct (Conn.relay c) as [|r0 [|r1 [|r2 [|r3 [|? ?]]]]];
      try discriminate.
    cbn [indexAt nth_error bind].
    destruct (Byte.eqb r0 x00), (Byte.eqb r1 x00), (Byte.eqb r2 x00),
      (Byte.eqb r3 x00); cbn; eexists; reflexivity. }
  destruct Hport as [port Hport]. rewrite Hport. cbn [bind]. rewrite Hb.
  cbn [listenLoop].
  rewrite (firstn_all2 b1) by exact Hl1.
  rewrite (firstn_all2 b2) by exact Hl2.
  unfold Conn_handlerResponse at 1. rewrite Ho. cbn [bind].
  change (Conn.TransactionID (after (Conn_Discovery c)))
    with (Conn.TransactionID c).
  rewrite Hxo, Z.eqb_refl, Hto. cbn [negb].
  change (Byte.eqb MessageTypeOffer MessageTypeNak) with false. cbv iota.
  change (Byte.eqb
            (Conn.CurrentMessageType
               (Conn.setRetry (after (Conn_Discovery c)) 0))
            MessageTypeDiscover) with true.
  change (Byte.eqb MessageTypeOffer MessageTypeOffer) with true.
  cbn [andb].
  destruct (failed (Conn_Request (Conn.setRetry (after (Conn_Discovery c)) 0)
                      offer));
    cbn [bind done session sent];
    change (Byte.eqb MessageTypeOffer MessageTypeAck) with false;
    rewrite ?andb_false_r; cbv iota;
    unfold Conn_handlerResponse; rewrite Ha; cbn [bind];
    change (Conn.TransactionID
              (after (Conn_Request
                        (Conn.setRetry (after (Conn_Discovery c)) 0) offer)))
      with (Conn.TransactionID c);
    rewrite Hxa, Z.eqb_refl, Hta; cbn [negb];
    change (Byte.eqb MessageTypeAck MessageTypeNak) with false; cbv iota;
    reflexivity.
Qed.

(** X9. [getOption] returns the first option of the list that has the
    code asked for: every option before it has another code; and it
    returns none only when no option of the list has the code. *)
Theorem getOption_first (options : list OptionInter) (code : byte) :
  match getOption options code with
  | Some option =>
      exists before rest,
        options = before ++ option :: rest
        /\ OptionInter_GetCode option = code
        /\ Forall (fun o => OptionInter_GetCode o <> code) before
  | None => Forall (fun o => OptionInter_GetCode o <> code) options
  end.
Proof.
  induction options as [|o options IH]; cbn [getOption].
  - apply Forall_nil.
  - destruct (Byte.eqb (OptionInter_GetCode o) code) eqn:E.
    + apply Byte.byte_dec_bl in E. exists [], options.
      split; [reflexivity|]. split; [exact E|]. apply Forall_nil.
    + apply Byte.eqb_false in E.
      destruct (getOption options code) as [option|].
      * destruct IH as (before & rest & -> & Hc & Hb).
        exists (o :: before), rest.
        split; [reflexivity|]. split; [exact Hc|].
        apply Forall_cons; assumption.
      * apply Forall_cons; assumption.
Qed.

(** X16. A session whose current type is neither Discover nor Request (as
    after [Decline] or [Release]) sends nothing in the receive loop
    whatever it reads, and keeps its current type; it is signalled only by
    a timeout or by a NAK that comes from the session's server host. *)
Theorem listenLoop_one_shot (reads : list read) :
  forall (c : Conn.t) (out : list Message) (r : listened Message),
    Conn.CurrentMessageType c <> MessageTypeDiscover ->
    Conn.CurrentMessageType c <> MessageTypeRequest ->
    listenLoop c out reads = Ok r ->
    sentAll r = out
    /\ Conn.CurrentMessageType (final r) = Conn.CurrentMessageType c
    /\ (ended r = Signalled ->
        Exists
          (fun rd =>
             match rd with
             | ReadError timeout => timeout = true
             | Datagram addr payload =>
                 addr = Conn.DhcpServerHost c
                 /\ Message.MessageType (decoded (firstn 576 payload))
                    = MessageTypeNak
             end)
          reads).
Proof.
  induction reads as [|rd reads IH]; intros c out r Hd Hq H.
  - cbn [listenLoop] in H. injection H as <-. cbn [sentAll final ended].
    split; [reflexivity|]. split; [reflexivity|]. discriminate.
  - destruct rd as [addr payload|timeout]; cbn [listenLoop] in H.
    + destruct (Conn_handlerResponse c addr (firstn 576 payload))
        as [r0| |] eqn:Hr0; cbn [bind] in H; try discriminate H.
      destruct (handlerResponse_cases c addr _ r0 Hr0) as (m & Hm & Hc).
      destruct Hc as [(_ & ->)|[(_ & _ & Hd' & _)|[(_ & Hn & ->)|
                     [(_ & _ & Hd' & _)|(_ & _ & ->)]]]];
        try contradiction; cbn [done session sent] in H.
      * rewrite app_nil_r in H.
        destruct (IH c out r Hd Hq H) as (Hs & Hcur & He).
        split; [exact Hs|]. split; [exact Hcur|].
        intros E. apply Exists_cons_tl. exact (He E).
      * rewrite app_nil_r in H.
        destruct (String.eqb addr (Conn.DhcpServerHost c)) eqn:Ea.
        -- injection H as <-. cbn [sentAll final ended].
           split; [reflexivity|]. split; [reflexivity|]. intros _.
           apply Exists_cons_hd. split.
           ++ apply String.eqb_eq. exact Ea.
           ++ unfold decoded. rewrite Hm. exact Hn.
        -- destruct (IH (Conn.setRetry c (succInt (Conn.retry c))) out r
                       Hd Hq H) as (Hs & Hcur & He).
           split; [exact Hs|]. split; [exact Hcur|].
           intros E. apply Exists_cons_tl. exact (He E).
      * rewrite app_nil_r in H.
        destruct (Byte.eqb (Conn.CurrentMessageType c) MessageTypeRequest)
          eqn:Er.
        { apply Byte.byte_dec_bl in Er. contradiction. }
        cbn [andb] in H.
        destruct (IH (Conn.setRetry c 0) out r Hd Hq H) as (Hs & Hcur & He).
        split; [exact Hs|]. split; [exact Hcur|].
        intros E. apply Exists_cons_tl. exact (He E).
    + destruct timeout.
      * injection H as <-. cbn [sentAll final ended].
        split; [reflexivity|]. split; [reflexivity|]. intros _.
        apply Exists_cons_hd. reflexivity.
      * destruct (IH c out r Hd Hq H) as (Hs & Hcur & He).
        split; [exact Hs|]. split; [exact Hcur|].
        intros E. apply Exists_cons_tl. exact (He E).
Qed.

(** X17. [Release] and [Decline] do not check the address text. When it
    does not parse, the Release carries an empty client address, so that
    its encoding is four bytes short and the relay address sits at bytes
    20..23 instead of 24..27; the Decline carries an option 50 of length
    octet 4 and no payload, two bytes on the wire. Both still set the
    session's current type. *)
Theorem unparsed_address_is_sent (c : Conn.t) (ip : string) :
  ParseIPTo4 ip = [] ->
  length (Conn.relay c) = 4 ->
  Message.ClientIP (message (Conn_Release c ip)) = []
  /\ firstn 4 (skipn 20 (Message_Encode (message (Conn_Release c ip))))
     = Conn.relay c
  /\ Conn.CurrentMessageType (after (Conn_Release c ip)) = MessageTypeRelease
  /\ nth_error (Message.Options (message (Conn_Decline c ip))) 2
     = Some (Opt50 (Option50.mk x32 x04 []))
  /\ OptionInter_Encode (Opt50 (Option50.mk x32 x04 [])) = [x32; x04]
  /\ Conn.CurrentMessageType (after (Conn_Decline c ip)) = MessageTypeDecline.
Proof.
  intros Hip Hr.
  split; [unfold Conn_Release; rewrite Hip; reflexivity|].
  split; [|split; [reflexivity|split; [|split; reflexivity]]].
  - rewrite Message_Encode_padded. unfold Conn_Release, Message_unpadded.
    rewrite Hip.
    cbn [message Message.setRelayAgentIP Message.setSecondsElapsed
         Message.setTransactionID GenReleaseMessage
         Message.OpCode Message.HardwareType Message.HardwareLength
         Message.Hops Message.TransactionID Message.SecondsElapsed
         Message.Flags Message.ClientIP Message.YourIP Message.NextServerIP
         Message.RelayAgentIP Conn.setCurrentMessageType Conn.relay
         Uint32ToBytes Uint16ToBytes make repeat app skipn].
    rewrite <- app_assoc. apply firstn_app_exact. exact Hr.
  - unfold Conn_Decline. rewrite Hip. reflexivity.
Qed.

(** X18. A session returned by [NewDHCPRequest]: the MAC text parsed and
    its bytes are kept beside the text; the counters are 0 and no message
    type is set; the relay address is never empty, 0.0.0.0 without a relay
    text and the parsed text otherwise; the server host is kept as given
    (also when empty, where the broadcast address stood in for the
    checks). The Discover of such a session has the parsed MAC as hardware
    address and as client identifier. *)
Theorem NewDHCPRequest_session
  (serverIP relay hostName mac : string) (xid : Z) (parses : string -> bool)
  (en0 dial : bool) (c : Conn.t) :
  NewDHCPRequest serverIP relay hostName mac xid parses en0 dial = Some c ->
  (ParseMAC mac = Some (Conn.MacByte c) /\ Conn.Mac c = mac)
  /\ (Conn.TransactionID c = xid /\ Conn.SecondsElapsed c = 0%Z
      /\ Conn.retry c = 0%Z /\ Conn.CurrentMessageType c = x00)
  /\ (Conn.DhcpServerHost c = serverIP /\ Conn.HostName c = hostName)
  /\ (Conn.relay c <> []
      /\ (relay = EmptyString -> Conn.relay c = make 4)
      /\ (relay <> EmptyString -> Conn.relay c = ParseIPTo4 relay))
  /\ (en0 = true /\ dial = true
      /\ parses (if String.eqb serverIP EmptyString
                 then "255.255.255.255"%string else serverIP) = true)
  /\ (ClientHardware.HardwareAddress
        (Message.ClientMAC (message (Conn_Discovery c)))
      = Conn.MacByte c
      /\ In (Opt61 (Option61.mk x3d x07 x01 (Conn.MacByte c)))
           (Message.Options (message (Conn_Discovery c)))).
Proof.
  unfold NewDHCPRequest.
  destruct (ParseMAC mac) as [hw|] eqn:Hmac; [|discriminate].
  destruct en0; cbn [negb]; [|discriminate].
  destruct (String.eqb_spec relay EmptyString) as [Hrel|Hrel].
  - destruct (parses _) eqn:Hp; cbn [negb]; [|discriminate].
    destruct dial; cbn [negb]; [|discriminate].
    intros H. injection H as <-.
    cbn [Conn.MacByte Conn.Mac Conn.TransactionID Conn.SecondsElapsed
         Conn.retry Conn.CurrentMessageType Conn.DhcpServerHost
         Conn.HostName Conn.relay].
    repeat match goal with |- _ /\ _ => split end;
      try reflexivity; try assumption; try discriminate;
      try (intros; contradiction).
    + unfold Conn_Discovery, GenDiscoverMessage, GenClientHardware.
      cbn [Conn.Mac]. rewrite Hmac. reflexivity.
    + unfold Conn_Discovery, withHostName. cbn [Conn.HostName Conn.MacByte].
      destruct (String.eqb hostName EmptyString); cbn; tauto.
  - destruct (ParseIPTo4 relay) as [|r0 rs] eqn:Hr; [discriminate|].
    destruct (parses _) eqn:Hp; cbn [negb]; [|discriminate].
    destruct dial; cbn [negb]; [|discriminate].
    intros H. injection H as <-.
    cbn [Conn.MacByte Conn.Mac Conn.TransactionID Conn.SecondsElapsed
         Conn.retry Conn.CurrentMessageType Conn.DhcpServerHost
         Conn.HostName Conn.relay].
    repeat match goal with |- _ /\ _ => split end;
      try reflexivity; try assumption; try discriminate;
      try (intros; contradiction).
    + unfold Conn_Discovery, GenDiscoverMessage, GenClientHardware.
      cbn [Conn.Mac]. rewrite Hmac. reflexivity.
    + unfold Conn_Discovery, withHostName. cbn [Conn.HostName Conn.MacByte].
      destruct (String.eqb hostName EmptyString); cbn; tauto.
Qed.

End Dhcp4.

(** * The properties at work on the example platform *)

#[local] Existing Instance examplePlatform.

(** [Decode] does return on a full-length reply: the hypotheses of the
    theorems about decoded messages are met by real datagrams. *)
Lemma exampleReply_decodes :
  Message_Decode Message_zero (exampleReply 305419896 MessageTypeOffer)
  = Ok (decoded (exampleReply 305419896 MessageTypeOffer))
  /\ Message.TransactionID (decoded (exampleReply 305419896 MessageTypeOffer))
     = 305419896%Z
  /\ Message.YourIP (decoded (exampleReply 305419896 MessageTypeOffer))
     = bytes [10; 0; 0; 5]%Z
  /\ Message.Options (decoded (exampleReply 305419896 MessageTypeOffer))
     = [Opt53 (Option53.mk x35 x01 MessageTypeOffer);
        Opt54 (Option54.mk x36 x04 (bytes [10; 0; 0; 1]%Z));
        Opt255 (Option255.mk xff)].
Proof.
  vm_compute. repeat split.
Qed.

(** So does [Decode] on the example offer, which also carries option
    61. *)
Lemma exampleOffer_decodes :
  Message_Decode Message_zero (exampleOffer 305419896 0)
  = Ok (decoded (exampleOffer 305419896 0))
  /\ Message.Options (decoded (exampleOffer 305419896 0))
     = [Opt53 (Option53.mk x35 x01 MessageTypeOffer);
        Opt54 (Option54.mk x36 x04 (bytes [10; 0; 0; 1]%Z));
        Opt61 (Option61.mk x3d x07 x01 (bytes [0; 0; 0; 0; 0; 1]%Z));
        Opt255 (Option255.mk xff)]
  /\ length (exampleOffer 305419896 0) = 300.
Proof.
  vm_compute. repeat split.
Qed.

(** C1: a reply cut after 239 bytes. *)
Lemma Message_Decode_short_panics_witness :
  length (firstn 239 (exampleReply 305419896 MessageTypeOffer)) <= 240
  /\ Message_Decode Message_zero
       (firstn 239 (exampleReply 305419896 MessageTypeOffer))
     = Panic.
Proof.
  assert (H : length (firstn 239 (exampleReply 305419896 MessageTypeOffer))
              <= 240) by (vm_compute; lia).
  split; [exact H | apply (Message_Decode_short_panics _ _ H)].
Defined.

(** C2: the Discover of scenario A with a client identifier, and the
    Request for the example offer. *)
Lemma builders_Decode_Encode_witness :
  Message_Decode Message_zero
    (Message_Encode
       (GenDiscoverMessage "00:00:00:00:00:01"
          [Opt61 (GenOption61 (bytes [0; 0; 0; 0; 0; 1]%Z))]))
  = Ok (Message.setOptions
          (GenDiscoverMessage "00:00:00:00:00:01"
             [Opt61 (GenOption61 (bytes [0; 0; 0; 0; 0; 1]%Z))])
          [Opt53 (Option53.mk x35 x01 MessageTypeDiscover)])
  /\ Message_Decode Message_zero
       (Message_Encode
          (GenRequestMessage
             (decoded (exampleReply 305419896 MessageTypeOffer)) []))
     = Ok (Message.setOptions
             (GenRequestMessage
                (decoded (exampleReply 305419896 MessageTypeOffer)) [])
             [Opt53 (Option53.mk x35 x01 MessageTypeRequest)]).
Proof.
  assert (Hx : (0 <= Message.TransactionID
                       (decoded (exampleReply 305419896 MessageTypeOffer))
                < 4294967296)%Z) by (vm_compute; split; congruence).
  pose proof (builders_Decode_Encode "00:00:00:00:00:01"
                (bytes [0; 0; 0; 0; 0; 1]%Z) (bytes [10; 0; 0; 5]%Z)
                (bytes [10; 0; 0; 5]%Z)
                [Opt61 (GenOption61 (bytes [0; 0; 0; 0; 0; 1]%Z))]
                (decoded (exampleReply 305419896 MessageTypeOffer))
                eq_refl eq_refl eq_refl Hx eq_refl eq_refl) as H.
  cbv zeta in H. destruct H as (Hd & _ & _ & Hr).
  split; [exact Hd | exact Hr].
Defined.

(** C2 as stated fails: of the options of an encoded Discover, [Decode]
    returns option 53 only; options 55 and 61 are not in the decoded
    message, which therefore differs from the encoded one. *)
Lemma Discover_options_not_recovered :
  Message_Decode Message_zero
    (Message_Encode
       (GenDiscoverMessage "00:00:00:00:00:01"
          [Opt61 (GenOption61 (bytes [0; 0; 0; 0; 0; 1]%Z))]))
  <> Ok (GenDiscoverMessage "00:00:00:00:00:01"
           [Opt61 (GenOption61 (bytes [0; 0; 0; 0; 0; 1]%Z))])
  /\ Message_getOption
       (decoded
          (Message_Encode
             (GenDiscoverMessage "00:00:00:00:00:01"
                [Opt61 (GenOption61 (bytes [0; 0; 0; 0; 0; 1]%Z))])))
       x37 = None
  /\ Message_getOption
       (decoded
          (Message_Encode
             (GenDiscoverMessage "00:00:00:00:00:01"
                [Opt61 (GenOption61 (bytes [0; 0; 0; 0; 0; 1]%Z))])))
       x3d = None.
Proof.
  split; [|split; reflexivity].
  intros H.
  apply (f_equal (fun r => match r with
                           | Ok m => length (Message.Options m)
                           | _ => O
                           end)) in H.
  vm_compute in H. discriminate H.
Qed.

(** C3: the first NAK to a session that has just sent its Discover, coming
    from the server's address and port. Nothing is sent. *)
Lemma handlerResponse_Nak_sends_nothing_witness :
  Message_Decode Message_zero (exampleReply 305419896 MessageTypeNak)
  = Ok (decoded (exampleReply 305419896 MessageTypeNak))
  /\ Message.TransactionID (decoded (exampleReply 305419896 MessageTypeNak))
     = Conn.TransactionID (after (Conn_Discovery exampleSession))
  /\ Message.MessageType (decoded (exampleReply 305419896 MessageTypeNak))
     = MessageTypeNak
  /\ (0 <= Conn.retry (after (Conn_Discovery exampleSession))
      < 9223372036854775807)%Z
  /\ Conn.CurrentMessageType (after (Conn_Discovery exampleSession))
     = MessageTypeDiscover
  /\ Conn_handlerResponse (after (Conn_Discovery exampleSession))
       "10.0.0.2:67" (exampleReply 305419896 MessageTypeNak)
     = Ok {| session :=
               Conn.setRetry (after (Conn_Discovery exampleSession)) 1;
             sent := [];
             done := false |}.
Proof.
  assert (H1 : Message_Decode Message_zero
                 (exampleReply 305419896 MessageTypeNak)
               = Ok (decoded (exampleReply 305419896 MessageTypeNak)))
    by (vm_compute; reflexivity).
  assert (H2 : Message.TransactionID
                 (decoded (exampleReply 305419896 MessageTypeNak))
               = Conn.TransactionID (after (Conn_Discovery exampleSession)))
    by (vm_compute; reflexivity).
  assert (H3 : Message.MessageType
                 (decoded (exampleReply 305419896 MessageTypeNak))
               = MessageTypeNak)
    by (vm_compute; reflexivity).
  assert (H4 : (0 <= Conn.retry (after (Conn_Discovery exampleSession))
                < 9223372036854775807)%Z)
    by (vm_compute; split; congruence).
  exact (conj H1 (conj H2 (conj H3 (conj H4 (conj eq_refl
           (handlerResponse_Nak_sends_nothing _ "10.0.0.2:67" _ _
              H1 H2 H3 H4)))))).
Defined.

(** C4: the Request for the example offer (scenario B) with one extra
    option: option 50 carries the offered 10.0.0.5, and the offer's
    options 54 and 61 are taken over as they are, after the extra one. *)
Lemma GenRequestMessage_fields_witness :
  (0 <= Message.SecondsElapsed (decoded (exampleOffer 305419896 0))
   < 65535)%Z
  /\ Message.TransactionID
       (GenRequestMessage (decoded (exampleOffer 305419896 0))
          [Opt57 (GenOption57 1500)])
     = 305419896%Z
  /\ Message.SecondsElapsed
       (GenRequestMessage (decoded (exampleOffer 305419896 0))
          [Opt57 (GenOption57 1500)])
     = 1%Z
  /\ Message.Options
       (GenRequestMessage (decoded (exampleOffer 305419896 0))
          [Opt57 (GenOption57 1500)])
     = [Opt53 (Option53.mk x35 x01 x03);
        Opt55 (Option55.mk x37 x0a
                 (bytes [1; 3; 6; 15; 46; 108; 114; 119; 121; 252]%Z));
        Opt50 (Option50.mk x32 x04 (bytes [10; 0; 0; 5]%Z));
        Opt57 (Option57.mk x39 x02 (bytes [5; 220]%Z));
        Opt54 (Option54.mk x36 x04 (bytes [10; 0; 0; 1]%Z));
        Opt61 (Option61.mk x3d x07 x01 (bytes [0; 0; 0; 0; 0; 1]%Z));
        Opt255 (Option255.mk xff)].
Proof.
  assert (Hs : (0 <= Message.SecondsElapsed
                       (decoded (exampleOffer 305419896 0)) < 65535)%Z)
    by (vm_compute; split; congruence).
  pose proof (GenRequestMessage_fields
                (decoded (exampleOffer 305419896 0))
                [Opt57 (GenOption57 1500)]) as H.
  cbv zeta in H. destruct H as (Hx & _ & _ & Hsecs & _ & Hopts & _).
  exact (conj Hs (conj Hx (conj (Hsecs Hs) Hopts))).
Defined.

(** C4 as stated fails: an offer whose elapsed-seconds field is 65535
    gives a Request with 0 elapsed seconds, not the offer's plus one. *)
Lemma Request_seconds_wrap :
  Message_Decode Message_zero (exampleOffer 305419896 65535)
  = Ok (decoded (exampleOffer 305419896 65535))
  /\ Message.SecondsElapsed (decoded (exampleOffer 305419896 65535))
     = 65535%Z
  /\ Message.SecondsElapsed
       (GenRequestMessage (decoded (exampleOffer 305419896 65535)) [])
     = 0%Z
  /\ Message.SecondsElapsed
       (GenRequestMessage (decoded (exampleOffer 305419896 65535)) [])
     <> (Message.SecondsElapsed (decoded (exampleOffer 305419896 65535))
         + 1)%Z.
Proof.
  split; [vm_compute; reflexivity|].
  split; [vm_compute; reflexivity|].
  split; [vm_compute; reflexivity|].
  intros H. vm_compute in H. discriminate H.
Qed.

(** C6: the decoded example reply takes 250 bytes and is padded to 300; a
    Discover with a host name of 46 bytes takes 304 and is encoded as it
    is. *)
Lemma Message_Encode_length_witness :
  wellSized (decoded (exampleReply 305419896 MessageTypeOffer))
  /\ length (naturalEncoding
               (decoded (exampleReply 305419896 MessageTypeOffer))) = 250
  /\ length (Message_Encode
               (decoded (exampleReply 305419896 MessageTypeOffer))) = 300
  /\ 300 <= length (naturalEncoding
                      (GenDiscoverMessage "00:00:00:00:00:01"
                         [Opt12 (GenOption12
                            "a-host-name-that-takes-the-datagram-beyond-300")]))
  /\ Message_Encode
       (GenDiscoverMessage "00:00:00:00:00:01"
          [Opt12 (GenOption12
             "a-host-name-that-takes-the-datagram-beyond-300")])
     = naturalEncoding
         (GenDiscoverMessage "00:00:00:00:00:01"
            [Opt12 (GenOption12
               "a-host-name-that-takes-the-datagram-beyond-300")])
  /\ length (Message_Encode
               (GenDiscoverMessage "00:00:00:00:00:01"
                  [Opt12 (GenOption12
                     "a-host-name-that-takes-the-datagram-beyond-300")]))
     = 304.
Proof.
  assert (Hw : wellSized (decoded (exampleReply 305419896 MessageTypeOffer)))
    by (vm_compute; intuition congruence).
  assert (Hl : 300 <= length
                  (naturalEncoding
                     (GenDiscoverMessage "00:00:00:00:00:01"
                        [Opt12 (GenOption12
                           "a-host-name-that-takes-the-datagram-beyond-300")])))
    by (vm_compute; lia).
  destruct (Message_Encode_length
              (decoded (exampleReply 305419896 MessageTypeOffer)))
    as (_ & _ & Hmax & _ & Hsize).
  destruct (Message_Encode_length
              (GenDiscoverMessage "00:00:00:00:00:01"
                 [Opt12 (GenOption12
                    "a-host-name-that-takes-the-datagram-beyond-300")]))
    as (_ & _ & Hmax' & Hcut & _).
  exact (conj Hw (conj (Hsize Hw) (conj Hmax (conj Hl
           (conj (Hcut Hl) Hmax'))))).
Defined.

(** C5: an Offer of transaction 1 reaches the session of transaction
    305419896 while it waits for its offer. *)
Lemma handlerResponse_other_transaction_witness :
  Message_Decode Message_zero (exampleReply 1 MessageTypeOffer)
  = Ok (decoded (exampleReply 1 MessageTypeOffer))
  /\ Message.TransactionID (decoded (exampleReply 1 MessageTypeOffer))
     <> Conn.TransactionID (after (Conn_Discovery exampleSession))
  /\ Conn_handlerResponse (after (Conn_Discovery exampleSession))
       "10.0.0.2:67" (exampleReply 1 MessageTypeOffer)
     = Ok {| session := after (Conn_Discovery exampleSession);
             sent := [];
             done := false |}.
Proof.
  assert (H1 : Message_Decode Message_zero (exampleReply 1 MessageTypeOffer)
               = Ok (decoded (exampleReply 1 MessageTypeOffer)))
    by reflexivity.
  assert (H2 : Message.TransactionID
                 (decoded (exampleReply 1 MessageTypeOffer))
               <> Conn.TransactionID (after (Conn_Discovery exampleSession)))
    by (intros H; vm_compute in H; discriminate H).
  exact (conj H1 (conj H2
           (handlerResponse_other_transaction _ "10.0.0.2:67" _ _ H1 H2))).
Defined.

(** C7: the header of the example reply, followed by the End octet alone,
    and by the End octet and an option 53 of type NAK. *)
Lemma Message_Decode_End_goes_on_witness :
  length (firstn 240 (exampleReply 305419896 MessageTypeOffer)) = 240
  /\ Message_Decode Message_zero
       (firstn 240 (exampleReply 305419896 MessageTypeOffer) ++ [xff])
     = Panic
  /\ Message_Decode Message_zero
       (firstn 240 (exampleReply 305419896 MessageTypeOffer)
          ++ [xff; x35; x01; MessageTypeNak; x00])
     = Ok (Message.setOptions
             (Message.setMessageType
                (headerAt Message_zero
                   (firstn 240 (exampleReply 305419896 MessageTypeOffer)))
                MessageTypeNak)
             [Opt255 (Option255.mk xff);
              Opt53 (Option53.mk x35 x01 MessageTypeNak)]).
Proof.
  assert (Hh : length (firstn 240 (exampleReply 305419896 MessageTypeOffer))
               = 240) by reflexivity.
  exact (conj Hh (Message_Decode_End_goes_on Message_zero _ MessageTypeNak Hh)).
Defined.



(** C9: an Ack reaches the session while it waits for its offer. *)
Lemma handlerResponse_other_combination_witness :
  Message_Decode Message_zero (exampleReply 305419896 MessageTypeAck)
  = Ok (decoded (exampleReply 305419896 MessageTypeAck))
  /\ Conn.CurrentMessageType (after (Conn_Discovery exampleSession))
     = MessageTypeDiscover
  /\ Message.MessageType (decoded (exampleReply 305419896 MessageTypeAck))
     = MessageTypeAck
  /\ Conn_handlerResponse (after (Conn_Discovery exampleSession))
       "10.0.0.2:67" (exampleReply 305419896 MessageTypeAck)
     = Ok {| session :=
               Conn.setRetry (after (Conn_Discovery exampleSession)) 0;
             sent := [];
             done := false |}.
Proof.
  assert (H1 : Message_Decode Message_zero
                 (exampleReply 305419896 MessageTypeAck)
               = Ok (decoded (exampleReply 305419896 MessageTypeAck)))
    by reflexivity.
  assert (H2 : Message.TransactionID
                 (decoded (exampleReply 305419896 MessageTypeAck))
               = Conn.TransactionID (after (Conn_Discovery exampleSession)))
    by reflexivity.
  assert (H3 : Message.MessageType
                 (decoded (exampleReply 305419896 MessageTypeAck))
               <> MessageTypeNak)
    by (intros H; vm_compute in H; discriminate H).
  assert (H4 : ~ (Conn.CurrentMessageType
                    (after (Conn_Discovery exampleSession))
                  = MessageTypeDiscover
                  /\ Message.MessageType
                       (decoded (exampleReply 305419896 MessageTypeAck))
                     = MessageTypeOffer))
    by (intros [_ H]; vm_compute in H; discriminate H).
  assert (H5 : ~ (Conn.CurrentMessageType
                    (after (Conn_Discovery exampleSession))
                  = MessageTypeRequest
                  /\ Message.MessageType
                       (decoded (exampleReply 305419896 MessageTypeAck))
                     = MessageTypeAck))
    by (intros [H _]; vm_compute in H; discriminate H).
  exact (conj H1 (conj eq_refl (conj eq_refl
           (handlerResponse_other_combination _ "10.0.0.2:67" _ _
              H1 H2 H3 H4 H5)))).
Defined.

(** C9 as stated fails. The session has sent its Discover; a NAK from
    another host is ignored but counted, which leaves the retry counter at
    1 in the same state; an Ack of the session's transaction, which is no
    documented transition of a session waiting for its offer, then sets
    the counter back to 0. *)
Lemma unexpected_Ack_resets_retry :
  Conn_handlerResponse (after (Conn_Discovery exampleSession))
    "10.0.0.9:67" (exampleReply 305419896 MessageTypeNak)
  = Ok {| session := Conn.setRetry (after (Conn_Discovery exampleSession)) 1;
          sent := [];
          done := false |}
  /\ Conn.CurrentMessageType
       (Conn.setRetry (after (Conn_Discovery exampleSession)) 1)
     = MessageTypeDiscover
  /\ Conn_handlerResponse
       (Conn.setRetry (after (Conn_Discovery exampleSession)) 1)
       "10.0.0.2:67" (exampleReply 305419896 MessageTypeAck)
     = Ok {| session :=
               Conn.setRetry (after (Conn_Discovery exampleSession)) 0;
             sent := [];
             done := false |}
  /\ Conn.retry (Conn.setRetry (after (Conn_Discovery exampleSession)) 0)
     <> Conn.retry (Conn.setRetry (after (Conn_Discovery exampleSession)) 1).
Proof.
  split; [reflexivity|]. split; [reflexivity|]. split; [reflexivity|].
  intros H. vm_compute in H. discriminate H.
Qed.

(** C10: a text that is no hardware address. *)
Lemma builders_discard_ParseMAC_error_witness :
  ParseMAC "not-a-mac" = None
  /\ Message.ClientMAC (GenDiscoverMessage "not-a-mac" [])
     = ClientHardware.zero
  /\ Message.ClientMAC
       (GenDeclineMessage "not-a-mac" (bytes [10; 0; 0; 5]%Z) [])
     = ClientHardware.zero
  /\ Message.ClientMAC
       (GenReleaseMessage "not-a-mac" (bytes [10; 0; 0; 5]%Z) [])
     = ClientHardware.zero
  /\ firstn 4 (skipn 220 (Message_Encode (GenDiscoverMessage "not-a-mac" [])))
     = MagicCookie.
Proof.
  assert (Hm : ParseMAC "not-a-mac" = None) by reflexivity.
  destruct (builders_discard_ParseMAC_error "not-a-mac"
              (bytes [10; 0; 0; 5]%Z) [] Hm)
    as (_ & Hd & Hc & Hr & _ & Hu & _).
  split; [exact Hm|]. split; [exact Hd|]. split; [exact Hc|].
  split; [exact Hr|].
  rewrite Message_Encode_padded, Hu. reflexivity.
Defined.

(** ** Further properties on the example platform *)

(** X5: the example offer is its 240 header bytes, the encodings of
    options 53, 54 and 255, and zero padding: the first zero octet stops
    the loop. *)
Lemma Message_Decode_reply_witness :
  length (firstn 240 (exampleReply 305419896 MessageTypeOffer)) = 240
  /\ forallb replyOption (exampleOptions MessageTypeOffer) = true
  /\ unrecognized x00
  /\ Message_Decode Message_zero
       (firstn 240 (exampleReply 305419896 MessageTypeOffer)
          ++ flat_map OptionInter_Encode (exampleOptions MessageTypeOffer)
          ++ x00 :: make 49)
     = Ok (Message.setOptions
             (Message.setMessageType
                (headerAt Message_zero
                   (firstn 240 (exampleReply 305419896 MessageTypeOffer)))
                (lastMessageType (exampleOptions MessageTypeOffer)
                   (Message.MessageType Message_zero)))
             (exampleOptions MessageTypeOffer)).
Proof.
  assert (H1 : length (firstn 240 (exampleReply 305419896 MessageTypeOffer))
               = 240) by reflexivity.
  assert (H2 : forallb replyOption (exampleOptions MessageTypeOffer) = true)
    by reflexivity.
  assert (H3 : unrecognized x00)
    by (unfold unrecognized; cbn; intuition discriminate).
  exact (conj H1 (conj H2 (conj H3
           (Message_Decode_reply Message_zero _ _ x00 (make 49) H1 H2 H3)))).
Defined.

(** X6: the example offer cut after its End option. *)
Lemma Message_Decode_reply_unterminated_witness :
  length (firstn 240 (exampleReply 305419896 MessageTypeOffer)) = 240
  /\ forallb replyOption (exampleOptions MessageTypeOffer) = true
  /\ Message_Decode Message_zero
       (firstn 240 (exampleReply 305419896 MessageTypeOffer)
          ++ flat_map OptionInter_Encode (exampleOptions MessageTypeOffer))
     = Panic.
Proof.
  assert (H1 : length (firstn 240 (exampleReply 305419896 MessageTypeOffer))
               = 240) by reflexivity.
  assert (H2 : forallb replyOption (exampleOptions MessageTypeOffer) = true)
    by reflexivity.
  exact (conj H1 (conj H2
           (Message_Decode_reply_unterminated Message_zero _
              (Opt53 (Option53.mk x35 x01 MessageTypeOffer))
              [Opt54 (Option54.mk x36 x04 (bytes [10; 0; 0; 1]%Z));
               Opt255 (Option255.mk xff)] H1 H2))).
Defined.

(** X7: the decoded example offer, encoded and decoded again. *)
Lemma Message_Decode_Encode_reply_witness :
  wellSized (decoded (exampleReply 305419896 MessageTypeOffer))
  /\ forallb replyOption
       (Message.Options (decoded (exampleReply 305419896 MessageTypeOffer)))
     = true
  /\ length (Message_unpadded
               (decoded (exampleReply 305419896 MessageTypeOffer))) = 250
  /\ Message_Decode Message_zero
       (Message_Encode (decoded (exampleReply 305419896 MessageTypeOffer)))
     = Ok (decoded (exampleReply 305419896 MessageTypeOffer)).
Proof.
  assert (H1 : wellSized (decoded (exampleReply 305419896 MessageTypeOffer)))
    by (vm_compute; intuition congruence).
  assert (H2 : forallb replyOption
                 (Message.Options
                    (decoded (exampleReply 305419896 MessageTypeOffer)))
               = true) by reflexivity.
  exact (conj H1 (conj H2 (conj eq_refl
           (Message_Decode_Encode_reply Message_zero _ H1 H2)))).
Defined.

(** X8: the Discover of the example session, which has no host name. *)
Lemma Conn_Discovery_length_witness :
  ParseMAC (Conn.Mac exampleSession) = Some (bytes [0; 0; 0; 0; 0; 1]%Z)
  /\ length (Conn.MacByte exampleSession) = 6
  /\ length (Conn.relay exampleSession) = 4
  /\ length (Message_Encode (message (Conn_Discovery exampleSession))) = 300.
Proof.
  assert (H1 : ParseMAC (Conn.Mac exampleSession)
               = Some (bytes [0; 0; 0; 0; 0; 1]%Z)) by reflexivity.
  exact (conj H1 (conj eq_refl (conj eq_refl
           (Conn_Discovery_length exampleSession _ H1 eq_refl eq_refl
              eq_refl)))).
Defined.

(** X10: the example offer reaches the session that has sent its
    Discover. *)
Lemma handlerResponse_Offer_witness :
  Message_Decode Message_zero (exampleReply 305419896 MessageTypeOffer)
  = Ok (decoded (exampleReply 305419896 MessageTypeOffer))
  /\ Message.TransactionID (decoded (exampleReply 305419896 MessageTypeOffer))
     = Conn.TransactionID (after (Conn_Discovery exampleSession))
  /\ Conn.CurrentMessageType (after (Conn_Discovery exampleSession))
     = MessageTypeDiscover
  /\ Message.MessageType (decoded (exampleReply 305419896 MessageTypeOffer))
     = MessageTypeOffer
  /\ exists request,
       Conn_handlerResponse (after (Conn_Discovery exampleSession))
         "10.0.0.2:67" (exampleReply 305419896 MessageTypeOffer)
       = Ok {| session :=
                 Conn.mk 305419896%Z 1%Z "10.0.0.2" MessageTypeRequest
                   EmptyString "00:00:00:00:00:01"
                   (bytes [0; 0; 0; 0; 0; 1]%Z) 0%Z (bytes [10; 0; 0; 1]%Z);
               sent := [request];
               done := false |}
       /\ Message.RelayAgentIP request = bytes [10; 0; 0; 1]%Z
       /\ firstn 3 (Message.Options request)
          = [Opt53 (Option53.mk x35 x01 MessageTypeRequest);
             Opt55 GenOption55;
             Opt50 (Option50.mk x32 x04 (bytes [10; 0; 0; 5]%Z))].
Proof.
  assert (H1 : Message_Decode Message_zero
                 (exampleReply 305419896 MessageTypeOffer)
               = Ok (decoded (exampleReply 305419896 MessageTypeOffer)))
    by (vm_compute; reflexivity).
  assert (H2 : Message.TransactionID
                 (decoded (exampleReply 305419896 MessageTypeOffer))
               = Conn.TransactionID (after (Conn_Discovery exampleSession)))
    by (vm_compute; reflexivity).
  assert (H4 : Message.MessageType
                 (decoded (exampleReply 305419896 MessageTypeOffer))
               = MessageTypeOffer)
    by (vm_compute; reflexivity).
  destruct (handlerResponse_Offer (after (Conn_Discovery exampleSession))
              "10.0.0.2:67" _ _ H1 H2 eq_refl H4)
    as (request & Hr & _ & _ & _ & Hrelay & _ & Hopts & _).
  exact (conj H1 (conj H2 (conj eq_refl (conj H4
           (ex_intro _ request (conj Hr (conj Hrelay Hopts))))))).
Defined.

(** X11: an Ack reaches the session that waits for it. *)
Lemma handlerResponse_done_witness :
  Conn_handlerResponse
    (Conn.setCurrentMessageType exampleSession MessageTypeRequest)
    "10.0.0.2:67" (exampleReply 305419896 MessageTypeAck)
  = Ok {| session :=
            Conn.setCurrentMessageType exampleSession MessageTypeRequest;
          sent := [];
          done := true |}
  /\ Message.TransactionID (decoded (exampleReply 305419896 MessageTypeAck))
     = 305419896%Z
  /\ Message.MessageType (decoded (exampleReply 305419896 MessageTypeAck))
     = MessageTypeAck.
Proof.
  assert (H1 : Conn_handlerResponse
                 (Conn.setCurrentMessageType exampleSession MessageTypeRequest)
                 "10.0.0.2:67" (exampleReply 305419896 MessageTypeAck)
               = Ok {| session :=
                         Conn.setCurrentMessageType exampleSession
                           MessageTypeRequest;
                       sent := [];
                       done := true |})
    by (vm_compute; reflexivity).
  destruct (handlerResponse_done _ _ _ _ H1 eq_refl) as (_ & Hx & Hc).
  refine (conj H1 (conj Hx _)).
  destruct Hc as [(Hnak & _)|(Hack & _)]; [|exact Hack].
  vm_compute in Hnak. discriminate Hnak.
Defined.

(** X12: a NAK from another address reaches the session that has sent
    its Discover; only the retry counter moves. *)
Lemma handlerResponse_keeps_witness :
  Conn_handlerResponse (after (Conn_Discovery exampleSession))
    "10.0.0.9:67" (exampleReply 305419896 MessageTypeNak)
  = Ok {| session :=
            Conn.setRetry (after (Conn_Discovery exampleSession)) 1;
          sent := [];
          done := false |}
  /\ Conn.TransactionID
       (Conn.setRetry (after (Conn_Discovery exampleSession)) 1)
     = Conn.TransactionID (after (Conn_Discovery exampleSession))
  /\ Conn.relay (Conn.setRetry (after (Conn_Discovery exampleSession)) 1)
     = Conn.relay (after (Conn_Discovery exampleSession)).
Proof.
  assert (H1 : Conn_handlerResponse (after (Conn_Discovery exampleSession))
                 "10.0.0.9:67" (exampleReply 305419896 MessageTypeNak)
               = Ok {| session :=
                         Conn.setRetry
                           (after (Conn_Discovery exampleSession)) 1;
                       sent := [];
                       done := false |})
    by (vm_compute; reflexivity).
  destruct (handlerResponse_keeps _ _ _ _ H1)
    as (Hx & _ & _ & _ & _ & Hr & _).
  exact (conj H1 (conj Hx Hr)).
Defined.

(** X13: the Request sent on the example offer. *)
Lemma handlerResponse_sent_witness :
  Conn_handlerResponse (after (Conn_Discovery exampleSession))
    "10.0.0.2:67" (exampleReply 305419896 MessageTypeOffer)
  = Ok {| session :=
            Conn.mk 305419896%Z 1%Z "10.0.0.2" MessageTypeRequest
              EmptyString "00:00:00:00:00:01"
              (bytes [0; 0; 0; 0; 0; 1]%Z) 0%Z (bytes [10; 0; 0; 1]%Z);
          sent :=
            [Message.setRelayAgentIP
               (GenRequestMessage
                  (decoded (exampleReply 305419896 MessageTypeOffer))
                  [Opt57 (GenOption57 1500); Opt51 (GenOption51 7776000)])
               (bytes [10; 0; 0; 1]%Z)];
          done := false |}
  /\ Message.MessageType
       (Message.setRelayAgentIP
          (GenRequestMessage
             (decoded (exampleReply 305419896 MessageTypeOffer))
             [Opt57 (GenOption57 1500); Opt51 (GenOption51 7776000)])
          (bytes [10; 0; 0; 1]%Z))
     = MessageTypeRequest
  /\ 300 <= length
              (Message_Encode
                 (Message.setRelayAgentIP
                    (GenRequestMessage
                       (decoded (exampleReply 305419896 MessageTypeOffer))
                       [Opt57 (GenOption57 1500);
                        Opt51 (GenOption51 7776000)])
                    (bytes [10; 0; 0; 1]%Z))).
Proof.
  assert (H1 : Conn_handlerResponse (after (Conn_Discovery exampleSession))
                 "10.0.0.2:67" (exampleReply 305419896 MessageTypeOffer)
               = Ok {| session :=
                         Conn.mk 305419896%Z 1%Z "10.0.0.2" MessageTypeRequest
                           EmptyString "00:00:00:00:00:01"
                           (bytes [0; 0; 0; 0; 0; 1]%Z) 0%Z
                           (bytes [10; 0; 0; 1]%Z);
                       sent :=
                         [Message.setRelayAgentIP
                            (GenRequestMessage
                               (decoded
                                  (exampleReply 305419896 MessageTypeOffer))
                               [Opt57 (GenOption57 1500);
                                Opt51 (GenOption51 7776000)])
                            (bytes [10; 0; 0; 1]%Z)];
                       done := false |})
    by (vm_compute; reflexivity).
  destruct (handlerResponse_sent _ _ _ _ H1) as (_ & Hall).
  cbn [sent] in Hall. apply Forall_inv in Hall.
  destruct Hall as (_ & _ & _ & _ & Ht & Hlen).
  refine (conj H1 (conj _ Hlen)).
  destruct Ht as [Ht|Ht]; [|exact Ht].
  vm_compute in Ht. discriminate Ht.
Defined.

(** X14: two failed reads, then the timeout; the datagram behind it is
    never read. *)
Lemma listenLoop_timeout_witness :
  Forall (fun rd => rd = ReadError false) [ReadError false; ReadError false]
  /\ listenLoop exampleSession []
       ([ReadError false; ReadError false]
          ++ ReadError true
          :: [Datagram "10.0.0.2:67"
                (exampleReply 305419896 MessageTypeOffer)])
     = Ok {| final := exampleSession; sentAll := []; ended := Signalled |}
  /\ listenLoop exampleSession [] [ReadError false; ReadError false]
     = Ok {| final := exampleSession; sentAll := []; ended := Waiting |}.
Proof.
  assert (H1 : Forall (fun rd => rd = ReadError false)
                 [ReadError false; ReadError false])
    by (apply Forall_cons; [reflexivity|];
        apply Forall_cons; [reflexivity|]; apply Forall_nil).
  exact (conj H1
           (listenLoop_timeout exampleSession [] _
              [Datagram "10.0.0.2:67"
                 (exampleReply 305419896 MessageTypeOffer)] H1)).
Defined.

(** X15: scenario B from the Discover to the Ack. *)
Lemma listenUDP_exchange_witness :
  Conn_listenUDP (after (Conn_Discovery exampleSession)) (fun _ => true)
    [Datagram "10.0.0.2:67" (exampleReply 305419896 MessageTypeOffer);
     Datagram "10.0.0.2:67" (exampleReply 305419896 MessageTypeAck)]
  = Ok {| final :=
            Conn.mk 305419896%Z 1%Z "10.0.0.2" MessageTypeRequest
              EmptyString "00:00:00:00:00:01"
              (bytes [0; 0; 0; 0; 0; 1]%Z) 0%Z (bytes [10; 0; 0; 1]%Z);
          sentAll :=
            [Message.setRelayAgentIP
               (GenRequestMessage
                  (decoded (exampleReply 305419896 MessageTypeOffer))
                  [Opt57 (GenOption57 1500); Opt51 (GenOption51 7776000)])
               (bytes [10; 0; 0; 1]%Z)];
          ended := Signalled |}.
Proof.
  assert (Ho : Message_Decode Message_zero
                 (exampleReply 305419896 MessageTypeOffer)
               = Ok (decoded (exampleReply 305419896 MessageTypeOffer)))
    by (vm_compute; reflexivity).
  assert (Ha : Message_Decode Message_zero
                 (exampleReply 305419896 MessageTypeAck)
               = Ok (decoded (exampleReply 305419896 MessageTypeAck)))
    by (vm_compute; reflexivity).
  assert (Hl1 : length (exampleReply 305419896 MessageTypeOffer) <= 576)
    by (vm_compute; lia).
  assert (Hl2 : length (exampleReply 305419896 MessageTypeAck) <= 576)
    by (vm_compute; lia).
  exact (listenUDP_exchange exampleSession (fun _ => true)
           "10.0.0.2:67" "10.0.0.2:67" _ _ _ _ [] eq_refl
           (fun _ => eq_refl) Hl1 Hl2 Ho Ha eq_refl eq_refl eq_refl eq_refl).
Defined.

(** X16: after a Release the listener reads an Offer and then times
    out. *)
Lemma listenLoop_one_shot_witness :
  Conn.CurrentMessageType (after (Conn_Release exampleSession "10.0.0.5"))
  <> MessageTypeDiscover
  /\ Conn.CurrentMessageType (after (Conn_Release exampleSession "10.0.0.5"))
     <> MessageTypeRequest
  /\ listenLoop (after (Conn_Release exampleSession "10.0.0.5")) []
       [Datagram "10.0.0.2:67" (exampleReply 305419896 MessageTypeOffer);
        ReadError true]
     = Ok {| final := after (Conn_Release exampleSession "10.0.0.5");
             sentAll := [];
             ended := Signalled |}
  /\ Conn.CurrentMessageType (after (Conn_Release exampleSession "10.0.0.5"))
     = MessageTypeRelease.
Proof.
  assert (H1 : Conn.CurrentMessageType
                 (after (Conn_Release exampleSession "10.0.0.5"))
               <> MessageTypeDiscover)
    by (intros H; vm_compute in H; discriminate H).
  assert (H2 : Conn.CurrentMessageType
                 (after (Conn_Release exampleSession "10.0.0.5"))
               <> MessageTypeRequest)
    by (intros H; vm_compute in H; discriminate H).
  assert (H3 : listenLoop (after (Conn_Release exampleSession "10.0.0.5")) []
                 [Datagram "10.0.0.2:67"
                    (exampleReply 305419896 MessageTypeOffer);
                  ReadError true]
               = Ok {| final := after (Conn_Release exampleSession "10.0.0.5");
                       sentAll := [];
                       ended := Signalled |})
    by (vm_compute; reflexivity).
  destruct (listenLoop_one_shot _ _ _ _ H1 H2 H3) as (_ & Ht & _).
  exact (conj H1 (conj H2 (conj H3 Ht))).
Defined.

(** X17: a text that is no dotted quad. *)
Lemma unparsed_address_is_sent_witness :
  ParseIPTo4 "10.0.0" = []
  /\ length (Conn.relay exampleSession) = 4
  /\ Message.ClientIP (message (Conn_Release exampleSession "10.0.0")) = []
  /\ firstn 4 (skipn 20
                 (Message_Encode
                    (message (Conn_Release exampleSession "10.0.0"))))
     = bytes [10; 0; 0; 1]%Z
  /\ nth_error
       (Message.Options (message (Conn_Decline exampleSession "10.0.0"))) 2
     = Some (Opt50 (Option50.mk x32 x04 [])).
Proof.
  assert (H1 : ParseIPTo4 "10.0.0" = []) by reflexivity.
  destruct (unparsed_address_is_sent exampleSession "10.0.0" H1 eq_refl)
    as (Hc & Hr & _ & Hd & _).
  exact (conj H1 (conj eq_refl (conj Hc (conj Hr Hd)))).
Defined.

(** X18: the example session is the one [NewDHCPRequest] returns for its
    texts. *)
Lemma NewDHCPRequest_session_witness :
  NewDHCPRequest "10.0.0.2" "10.0.0.1" EmptyString "00:00:00:00:00:01"
    305419896 (fun _ => true) true true
  = Some exampleSession
  /\ ParseMAC "00:00:00:00:00:01" = Some (Conn.MacByte exampleSession)
  /\ Conn.relay exampleSession <> []
  /\ In (Opt61 (Option61.mk x3d x07 x01 (Conn.MacByte exampleSession)))
       (Message.Options (message (Conn_Discovery exampleSession))).
Proof.
  assert (H1 : NewDHCPRequest "10.0.0.2" "10.0.0.1" EmptyString
                 "00:00:00:00:00:01" 305419896 (fun _ => true) true true
               = Some exampleSession) by reflexivity.
  destruct (NewDHCPRequest_session _ _ _ _ _ _ _ _ _ H1)
    as ((Hm & _) & _ & _ & (Hr & _) & _ & _ & Hin).
  exact (conj H1 (conj Hm (conj Hr Hin))).
Defined.
